(** * PDFReader: a shallow embedding of [pdf_reader.py]

    The class [PDFReader] keeps a path and, on every call, re-opens the
    file behind it with one of two third-party backends (PyPDF2 or
    pdfplumber).  The backends are opaque to the program, so a PDF file is
    modelled by what the backends report for it: a list of pages, each page
    carrying the text either backend extracts, its geometry and its tables.

    Python code is embedded in a small state-and-exception monad [Py].  The
    state holds the attribute dictionary of [self], the file system the
    program runs against, and the sequence of file-system and backend
    operations performed so far. *)

From stdpp Require Import gmap strings list pretty.
From Stdlib Require Import QArith Ascii.

Local Open Scope Z_scope.

(** ** Values and documents *)

(** The Python values the program stores in attributes and dictionaries. *)
Inductive pyval : Type :=
  | VNone
  | VStr (s : string)
  | VInt (n : Z)
  | VNum (q : Q).

(** [extract_text()] yields a string, or [None] on some backend versions. *)
Definition of_text (t : option string) : pyval :=
  match t with
  | Some s => VStr s
  | None => VNone
  end.

(** A table is a list of rows, a row a list of cells, a cell a string or
    [None]. *)
Definition table : Type := list (list (option string)).

(** One physical page, as seen through the two backends. *)
Record Page : Type := mkPage {
  pypdf2_extract_text : option string;  (* PyPDF2: [page.extract_text()] *)
  extract_text : option string;         (* pdfplumber: [page.extract_text()] *)
  width : Q;                            (* pdfplumber: [page.width] *)
  height : Q;                           (* pdfplumber: [page.height] *)
  extract_tables : list table           (* pdfplumber: [page.extract_tables()] *)
}.

(** What lives at a path: a PDF document, or bytes no backend can parse. *)
Inductive file : Type :=
  | PdfFile (pages : list Page)
  | OtherFile.

Inductive backend : Type := PyPDF2 | Pdfplumber.

(** Operations on the outside world, in the order they are performed. *)
Inductive event : Type :=
  | EvExists (path : string)
  | EvOpen (path : string)
  | EvParse (lib : backend) (path : string)
  | EvClose (path : string).

Inductive exn : Type :=
  | FileNotFoundError (msg : string)   (* raised by [__init__] *)
  | ValueError (msg : string)          (* raised by [extract_tables_by_page] *)
  | AttributeError (name : string)
  | TypeError
  | IndexError
  | OSError (path : string)            (* opening a path where nothing exists *)
  | PdfReadError (path : string).      (* the backend rejects the file *)

(** ** Program state and the [Py] monad *)

Record state : Type := mkState {
  self : gmap string pyval;   (* [self.__dict__] *)
  fs : gmap string file;      (* the file system *)
  trace : list event
}.

Definition Py (A : Type) : Type := state → (exn + A) * state.

#[global] Instance Py_ret : MRet Py := λ A x st, (inr x, st).

#[global] Instance Py_bind : MBind Py := λ A B f m st,
  match m st with
  | (inr x, st') => f x st'
  | (inl e, st') => (inl e, st')
  end.

Definition raise {A : Type} (e : exn) : Py A := λ st, (inl e, st).

Definition log (ev : event) (st : state) : state :=
  mkState (self st) (fs st) (trace st ++ [ev]).

Definition emit (ev : event) : Py unit := λ st, (inr (), log ev st).

(** [with ... :] runs the exit action on every way out of its body. *)
Definition finally {A : Type} (body : Py A) (cleanup : Py unit) : Py A := λ st,
  match body st with
  | (r, st') =>
      match cleanup st' with
      | (inr _, st'') => (r, st'')
      | (inl e, st'') => (inl e, st'')
      end
  end.

(** [for x in xs: body], the loop-carried variables being [s]. *)
Fixpoint for_ {X S : Type} (xs : list X) (body : X → S → Py S) (s : S) : Py S :=
  match xs with
  | [] => mret s
  | x :: xs' => s' ← body x s; for_ xs' body s'
  end.

(** ** Python built-ins and the backends *)

(** [range(a, b)] *)
Definition range (a b : Z) : list Z := seqZ a (b - a).

(** [enumerate(l)] *)
Definition enumerate {A : Type} (l : list A) : list (Z * A) :=
  zip (seqZ 0 (Z.of_nat (length l))) l.

(** [l[i]]: negative indices count from the end, anything else outside the
    list raises. *)
Definition py_index {A : Type} (l : list A) (i : Z) : Py A :=
  let n := Z.of_nat (length l) in
  let j := if bool_decide (i < 0) then i + n else i in
  if bool_decide (0 ≤ j) then
    match l !! Z.to_nat j with
    | Some x => mret x
    | None => raise IndexError
    end
  else raise IndexError.

(** The decimal text of an integer. *)
Definition decimal (n : Z) : string := pretty n.

(** The interpreter refuses to turn an integer of more than
    [sys.int_max_str_digits] digits into text; 4300 is the default. *)
Definition int_max_str_digits : nat := 4300.

Definition int_max_str_digits_msg : string :=
  "Exceeds the limit (4300 digits) for integer string conversion; use sys.set_int_max_str_digits() to increase the limit".

(** [str(n)], also what [{n}] in an f-string evaluates to.  The digits are
    counted without the sign. *)
Definition str (n : Z) : Py string :=
  if bool_decide (String.length (decimal (Z.abs n)) ≤ int_max_str_digits)%nat
  then mret (decimal n)
  else raise (ValueError int_max_str_digits_msg).

(** [self.name] *)
Definition getattr (name : string) : Py pyval := λ st,
  match self st !! name with
  | Some v => (inr v, st)
  | None => (inl (AttributeError name), st)
  end.

(** [self.name = v] *)
Definition setattr (name : string) (v : pyval) : Py unit := λ st,
  (inr (), mkState (<[name := v]> (self st)) (fs st) (trace st)).

(** A value used where a path is wanted. *)
Definition as_path (v : pyval) : Py string :=
  match v with
  | VStr s => mret s
  | _ => raise TypeError
  end.

(** [os.path.exists(path)] *)
Definition os_path_exists (path : string) : Py bool := λ st,
  (inr (bool_decide (is_Some (fs st !! path))), log (EvExists path) st).

(** [open(path, 'rb')] *)
Definition open_rb (path : string) : Py file := λ st,
  match fs st !! path with
  | Some f => (inr f, log (EvOpen path) st)
  | None => (inl (OSError path), log (EvOpen path) st)
  end.

(** [PyPDF2.PdfReader(file).pages] *)
Definition PdfReader (path : string) (f : file) : Py (list Page) :=
  _ ← emit (EvParse PyPDF2 path);
  match f with
  | PdfFile pages => mret pages
  | OtherFile => raise (PdfReadError path)
  end.

(** [pdfplumber.open(path).pages]; when the file does not parse, the
    library closes the stream it opened and raises. *)
Definition pdfplumber_open (path : string) : Py (list Page) :=
  f ← open_rb path;
  _ ← emit (EvParse Pdfplumber path);
  match f with
  | PdfFile pages => mret pages
  | OtherFile => _ ← emit (EvClose path); raise (PdfReadError path)
  end.

(** ** The class [PDFReader] *)

Definition not_found_msg (pdf_path : string) : string :=
  "PDF 파일을 찾을 수 없습니다: " +:+ pdf_path.

(** The text of [f"유효하지 않은 페이지 번호: {page_num}. 총 페이지 수:
    {total_pages}"] when both numbers can be turned into text. *)
Definition invalid_page_msg (page_num total_pages : Z) : string :=
  "유효하지 않은 페이지 번호: " +:+ decimal page_num +:+
  ". 총 페이지 수: " +:+ decimal total_pages.

(** [PDFReader.__init__(self, pdf_path)] *)
Definition __init__ (pdf_path : string) : Py unit :=
  found ← os_path_exists pdf_path;
  if negb found then raise (FileNotFoundError (not_found_msg pdf_path))
  else setattr "pdf_path" (VStr pdf_path).

(** [PDFReader.read_pages_with_pypdf2(self)] *)
Definition read_pages_with_pypdf2 : Py (list (option string)) :=
  let pages := [] in
  pdf_path ← getattr "pdf_path" ≫= as_path;
  file ← open_rb pdf_path;
  finally
    (reader_pages ← PdfReader pdf_path file;
     let total_pages := Z.of_nat (length reader_pages) in
     for_ (range 0 total_pages) (λ page_num pages,
       page ← py_index reader_pages page_num;
       let text := pypdf2_extract_text page in
       mret (pages ++ [text])) pages)
    (emit (EvClose pdf_path)).

(** [PDFReader.read_pages_with_pdfplumber(self)] *)
Definition read_pages_with_pdfplumber : Py (list (gmap string pyval)) :=
  let pages_info := [] in
  pdf_path ← getattr "pdf_path" ≫= as_path;
  pdf ← pdfplumber_open pdf_path;
  finally
    (for_ (enumerate pdf) (λ '(i, page) pages_info,
       let text := extract_text page in
       let page_info : gmap string pyval :=
         <["text" := of_text text]>
         (<["page_number" := VInt (i + 1)]>
         (<["width" := VNum (width page)]>
         (<["height" := VNum (height page)]> ∅))) in
       mret (pages_info ++ [page_info])) pages_info)
    (emit (EvClose pdf_path)).

(** [PDFReader.extract_text_by_page_range(self, start_page=1, end_page=None)] *)
Definition extract_text_by_page_range
    (start_page : Z) (end_page : option Z) : Py (list (option string)) :=
  let pages := [] in
  pdf_path ← getattr "pdf_path" ≫= as_path;
  pdf ← pdfplumber_open pdf_path;
  finally
    (let total_pages := Z.of_nat (length pdf) in
     let start_page := if bool_decide (start_page < 1) then 1 else start_page in
     let end_page :=
       match end_page with
       | None => total_pages
       | Some e => if bool_decide (e > total_pages) then total_pages else e
       end in
     let start_idx := start_page - 1 in
     let end_idx := end_page in
     for_ (range start_idx end_idx) (λ i pages,
       page ← py_index pdf i;
       let text := extract_text page in
       mret (pages ++ [text])) pages)
    (emit (EvClose pdf_path)).

(** [PDFReader.extract_tables_by_page(self, page_num)] *)
Definition extract_tables_by_page (page_num : Z) : Py (list table) :=
  pdf_path ← getattr "pdf_path" ≫= as_path;
  pdf ← pdfplumber_open pdf_path;
  finally
    (let total_pages := Z.of_nat (length pdf) in
     if bool_decide (page_num < 1 ∨ page_num > total_pages) then
       page_num_text ← str page_num;
       total_pages_text ← str total_pages;
       raise (ValueError ("유효하지 않은 페이지 번호: " +:+ page_num_text +:+
                          ". 총 페이지 수: " +:+ total_pages_text))
     else
       let page_idx := page_num - 1 in
       page ← py_index pdf page_idx;
       let tables := extract_tables page in
       mret tables)
    (emit (EvClose pdf_path)).

(** [PDFReader(pdf_path)]: a fresh object, initialised by [__init__]. *)
Definition new_object (files : gmap string file) (tr : list event) : state :=
  mkState ∅ files tr.

(** ** A sample world *)

Definition sample_page (a b : string) : Page :=
  mkPage (Some a) (Some b) (612 # 1) (792 # 1) [].

Definition sample_pages : list Page :=
  [sample_page "one" "one"; sample_page "two" "two"; sample_page "three" "three"].

Definition sample_state : state :=
  mkState {[ "pdf_path" := VStr "doc.pdf" ]} {[ "doc.pdf" := PdfFile sample_pages ]} [].


(** ** Vocabulary of the statements *)

(** The dictionary built for page [i] (0-based) by
    [read_pages_with_pdfplumber]. *)
Definition page_record (i : Z) (page : Page) : gmap string pyval :=
  <["text" := of_text (extract_text page)]>
  (<["page_number" := VInt (i + 1)]>
  (<["width" := VNum (width page)]>
  (<["height" := VNum (height page)]> ∅))).

(** [sub in s] *)
Definition includes (sub s : string) : Prop :=
  ∃ pre post, s = pre +:+ sub +:+ post.

(** [l[lo:hi]] for [0 ≤ lo] *)
Definition slice {A : Type} (l : list A) (lo hi : Z) : list A :=
  take (Z.to_nat (hi - lo)) (drop (Z.to_nat lo) l).

(** The states a pdfplumber-based method goes through when the path holds a
    PDF document: opened and parsed, then closed. *)
Definition after_open (st : state) (path : string) : state :=
  log (EvParse Pdfplumber path) (log (EvOpen path) st).

Definition after_pdfplumber (st : state) (path : string) : state :=
  log (EvClose path) (after_open st path).

(** The same for the PyPDF2-based method. *)
Definition after_pypdf2 (st : state) (path : string) : state :=
  log (EvClose path) (log (EvParse PyPDF2 path) (log (EvOpen path) st)).

(** A command that neither writes an attribute of [self] nor touches the
    file system, on any path through it. *)
Definition frame {A : Type} (m : Py A) : Prop :=
  ∀ st, self (m st).2 = self st ∧ fs (m st).2 = fs st.

(** A ten-page document; [a] is the text PyPDF2 finds on each page and [b]
    the text pdfplumber finds. *)
Definition ten_pages (a b : string) : list Page := replicate 10 (sample_page a b).

Definition ten_page_state (a b : string) : state :=
  mkState {[ "pdf_path" := VStr "ten.pdf" ]}
          {[ "ten.pdf" := PdfFile (ten_pages a b) ]} [].

(** [PDFReader(pdf_path).read_pages_with_pypdf2()]: build the object, then
    read through it, as the driver does. *)
Definition construct_and_read (pdf_path : string) : Py (list (option string)) :=
  _ ← __init__ pdf_path; read_pages_with_pypdf2.

(** Two states with the same object and the same files; they may differ in
    what has been done before. *)
Definition same_world (st1 st2 : state) : Prop :=
  self st1 = self st2 ∧ fs st1 = fs st2.

(** A command whose outcome is settled by the object and the files alone. *)
Definition history_free {A : Type} (m : Py A) : Prop :=
  ∀ st1 st2, same_world st1 st2 →
    (m st1).1 = (m st2).1 ∧ same_world (m st1).2 (m st2).2.

(** The keys of a page record. *)
Definition record_keys : gset string :=
  {[ "text"; "page_number"; "width"; "height" ]}.

(** An object whose path holds nothing, one whose path holds a file that is
    no PDF, and one whose path holds a PDF without pages. *)
Definition missing_state : state :=
  mkState {[ "pdf_path" := VStr "gone.pdf" ]} ∅ [].

Definition garbage_state : state :=
  mkState {[ "pdf_path" := VStr "notes.txt" ]} {[ "notes.txt" := OtherFile ]} [].

Definition empty_state : state :=
  mkState {[ "pdf_path" := VStr "empty.pdf" ]} {[ "empty.pdf" := PdfFile [] ]} [].

(** An integer [str] accepts. *)
Definition within_str_limit (n : Z) : Prop :=
  (String.length (decimal (Z.abs n)) ≤ int_max_str_digits)%nat.

#[global] Instance within_str_limit_dec n : Decision (within_str_limit n).
Proof. unfold within_str_limit. apply _. Defined.

(** The message of the [ValueError] that [extract_tables_by_page] raises for
    a page number outside the document: the one it formats, or the
    interpreter's when a number is too long to format. *)
Definition out_of_range_msg (page_num total_pages : Z) : string :=
  if bool_decide (within_str_limit page_num ∧ within_str_limit total_pages)
  then invalid_page_msg page_num total_pages
  else int_max_str_digits_msg.

(** [int(s)] on a decimal literal: an optional minus sign, then digits. *)
Definition digit_value (c : ascii) : option Z :=
  let code := Z.of_N (N_of_ascii c) in
  if bool_decide (48 ≤ code ≤ 57) then Some (code - 48) else None.

Fixpoint digits_value (s : string) (acc : Z) : option Z :=
  match s with
  | EmptyString => Some acc
  | String c s' => d ← digit_value c; digits_value s' (10 * acc + d)
  end.

Definition int_of_string (s : string) : option Z :=
  match s with
  | EmptyString => None
  | String c s' =>
      if Ascii.eqb c "-" then
        match s' with
        | EmptyString => None
        | _ => Z.opp <$> digits_value s' 0
        end
      else digits_value s 0
  end.

(** A method call, with its arguments. *)
Inductive method_call : Type :=
  | CallPypdf2
  | CallPdfplumber
  | CallRange (start_page : Z) (end_page : option Z)
  | CallTables (page_num : Z).

(** The state a call leaves behind, whether it returns or raises. *)
Definition state_after (c : method_call) (st : state) : state :=
  match c with
  | CallPypdf2 => (read_pages_with_pypdf2 st).2
  | CallPdfplumber => (read_pages_with_pdfplumber st).2
  | CallRange start_page end_page =>
      (extract_text_by_page_range start_page end_page st).2
  | CallTables page_num => (extract_tables_by_page page_num st).2
  end.

(** The state after a series of calls, each outcome caught by the caller. *)
Definition after_calls (calls : list method_call) (st : state) : state :=
  foldl (λ st c, state_after c st) st calls.

(** ** Running the monad *)

Lemma bind_inr {A B : Type} (m : Py A) (f : A → Py B) st x st' :
  m st = (inr x, st') → (m ≫= f) st = f x st'.
Proof. intros E. unfold mbind, Py_bind. by rewrite E. Qed.

Lemma bind_inl {A B : Type} (m : Py A) (f : A → Py B) st e st' :
  m st = (inl e, st') → (m ≫= f) st = (inl e, st').
Proof. intros E. unfold mbind, Py_bind. by rewrite E. Qed.

Lemma finally_emit {A : Type} (body : Py A) ev st r st' :
  body st = (r, st') → finally body (emit ev) st = (r, log ev st').
Proof. intros E. unfold finally. by rewrite E. Qed.

(** Run the first command of a sequence, given the equation for it. *)
Ltac step H := rewrite (bind_inr _ _ _ _ _ H); cbv beta.

Lemma open_rb_found st path f :
  fs st !! path = Some f → open_rb path st = (inr f, log (EvOpen path) st).
Proof. intros Hf. unfold open_rb. by rewrite Hf. Qed.

Lemma open_rb_missing st path :
  fs st !! path = None → open_rb path st = (inl (OSError path), log (EvOpen path) st).
Proof. intros Hf. unfold open_rb. by rewrite Hf. Qed.

Lemma PdfReader_pdf st path pages :
  PdfReader path (PdfFile pages) st = (inr pages, log (EvParse PyPDF2 path) st).
Proof. reflexivity. Qed.

Lemma pdf_path_run st path :
  self st !! "pdf_path" = Some (VStr path) →
  (getattr "pdf_path" ≫= as_path) st = (inr path, st).
Proof.
  intros Hp. rewrite (bind_inr _ _ st (VStr path) st); [reflexivity|].
  unfold getattr. by rewrite Hp.
Qed.

Lemma pdfplumber_open_pdf st path pages :
  fs st !! path = Some (PdfFile pages) →
  pdfplumber_open path st =
  (inr pages, log (EvParse Pdfplumber path) (log (EvOpen path) st)).
Proof.
  intros Hf. unfold pdfplumber_open. by step (open_rb_found _ _ _ Hf).
Qed.

Lemma pdfplumber_open_other st path :
  fs st !! path = Some OtherFile →
  pdfplumber_open path st = (inl (PdfReadError path), after_pdfplumber st path).
Proof.
  intros Hf. unfold pdfplumber_open. by step (open_rb_found _ _ _ Hf).
Qed.

Lemma pdfplumber_open_missing st path :
  fs st !! path = None →
  pdfplumber_open path st = (inl (OSError path), log (EvOpen path) st).
Proof.
  intros Hf. unfold pdfplumber_open.
  by rewrite (bind_inl _ _ _ _ _ (open_rb_missing _ _ Hf)).
Qed.

(** Indexing inside the list never raises. *)
Lemma py_index_inside {A : Type} (l : list A) (i : nat) x st :
  l !! i = Some x → py_index l (Z.of_nat i) st = (inr x, st).
Proof.
  intros Hx. unfold py_index. cbv zeta.
  rewrite (bool_decide_eq_false_2 (Z.of_nat i < 0)) by lia.
  rewrite (bool_decide_eq_true_2 (0 ≤ Z.of_nat i)) by lia.
  rewrite Nat2Z.id. by rewrite Hx.
Qed.

(** A loop over [range] that indexes a list and appends what it finds
    collects the corresponding slice, and raises nothing. *)
Lemma for_range_collect {B : Type} (l : list Page) (f : Page → B) (n a : nat) acc st :
  (a + n ≤ length l)%nat →
  for_ (seqZ (Z.of_nat a) (Z.of_nat n))
       (λ i acc, page ← py_index l i; mret (acc ++ [f page])) acc st =
  (inr (acc ++ (f <$> take n (drop a l))), st).
Proof.
  revert a acc. induction n as [|n IH]; intros a acc Hlen.
  - simpl. by rewrite app_nil_r.
  - rewrite seqZ_cons by lia.
    replace (Z.succ (Z.of_nat a)) with (Z.of_nat (S a)) by lia.
    replace (Z.pred (Z.of_nat (S n))) with (Z.of_nat n) by lia.
    destruct (lookup_lt_is_Some_2 l a) as [x Hx]; [lia|].
    cbn [for_]. rewrite (bind_inr _ _ st (acc ++ [f x]) st); last first.
    { rewrite (bind_inr _ _ st x st); [reflexivity|]. by apply py_index_inside. }
    rewrite IH by lia.
    rewrite (drop_S l x a Hx). cbn [take fmap list_fmap].
    by rewrite <- app_assoc.
Qed.

Lemma range_empty a b : b ≤ a → range a b = [].
Proof. intros H. unfold range. apply seqZ_nil. lia. Qed.

Lemma for_enumerate_collect (l : list Page) (a : Z) acc st :
  for_ (zip (seqZ a (Z.of_nat (length l))) l)
       (λ '(i, page) pages_info,
          let text := extract_text page in
          let page_info : gmap string pyval :=
            <["text" := of_text text]>
            (<["page_number" := VInt (i + 1)]>
            (<["width" := VNum (width page)]>
            (<["height" := VNum (height page)]> ∅))) in
          mret (pages_info ++ [page_info])) acc st =
  (inr (acc ++ zip_with page_record (seqZ a (Z.of_nat (length l))) l), st).
Proof.
  revert a acc. induction l as [|p l IH]; intros a acc.
  - simpl. by rewrite app_nil_r.
  - rewrite seqZ_cons by (simpl; lia).
    replace (Z.pred (Z.of_nat (length (p :: l)))) with (Z.of_nat (length l))
      by (simpl; lia).
    cbn [zip zip_with for_].
    rewrite (bind_inr _ _ st (acc ++ [page_record a p]) st); [|reflexivity].
    rewrite IH. by rewrite <- app_assoc.
Qed.

Lemma page_record_number i page :
  page_record i page !! "page_number" = Some (VInt (i + 1)).
Proof. unfold page_record. by simplify_map_eq. Qed.

(** ** Strings *)

Lemma string_app_nil_r (s : string) : s +:+ "" = s.
Proof.
  induction s as [|c s IH]; [done|].
  change (String c (s +:+ "") = String c s). by rewrite IH.
Qed.

Lemma string_app_assoc (s1 s2 s3 : string) :
  (s1 +:+ s2) +:+ s3 = s1 +:+ s2 +:+ s3.
Proof.
  induction s1 as [|c s1 IH]; [done|].
  change (String c ((s1 +:+ s2) +:+ s3) = String c (s1 +:+ s2 +:+ s3)).
  by rewrite IH.
Qed.

Lemma invalid_page_msg_includes page_num total_pages :
  includes (decimal page_num) (invalid_page_msg page_num total_pages) ∧
  includes (decimal total_pages) (invalid_page_msg page_num total_pages).
Proof.
  unfold includes, invalid_page_msg. split.
  - by eexists _, _.
  - exists ("유효하지 않은 페이지 번호: " +:+ decimal page_num +:+ ". 총 페이지 수: "), "".
    by rewrite string_app_nil_r, !string_app_assoc.
Qed.

(** Text is no longer than a text it is part of. *)
Lemma string_length_prefix (front back : string) :
  (String.length front ≤ String.length (front +:+ back))%nat.
Proof.
  induction front as [|c front IH]; [simpl; lia|].
  change (S (String.length front) ≤ S (String.length (front +:+ back)))%nat. lia.
Qed.

Lemma string_length_suffix (front back : string) :
  (String.length back ≤ String.length (front +:+ back))%nat.
Proof.
  induction front as [|c front IH]; [done|].
  change (String.length back ≤ S (String.length (front +:+ back)))%nat. lia.
Qed.

Lemma includes_length (sub s : string) :
  includes sub s → (String.length sub ≤ String.length s)%nat.
Proof.
  intros (pre & post & ->).
  pose proof (string_length_prefix sub post).
  pose proof (string_length_suffix pre (sub +:+ post)). lia.
Qed.

(** *** Decimal text *)

Lemma digit_value_char (x : N) :
  (x < 10)%N → digit_value (pretty_N_char x) = Some (Z.of_N x).
Proof.
  intros Hx. rewrite <- (N2Nat.id x).
  assert (N.to_nat x < 10)%nat as Hn by lia. revert Hn.
  generalize (N.to_nat x). intros n Hn.
  do 10 (destruct n as [|n]; [reflexivity|]). lia.
Qed.

(** Induction along the digits of a number, last digit first. *)
Lemma N_digits_ind (P : N → Prop) :
  P 0%N → (∀ x, (0 < x)%N → P (x `div` 10)%N → P x) → ∀ x, P x.
Proof.
  intros H0 Hstep x. induction x as [x IH] using (well_founded_induction N.lt_wf_0).
  destruct (decide (x = 0%N)) as [->|Hne]; [done|].
  apply Hstep; [lia|]. apply IH, N.div_lt; lia.
Qed.

(** Reading the digits written for [x] in front of [s] shifts the
    accumulator and adds [x]. *)
Lemma digits_value_go (x : N) (s : string) (acc : Z) :
  ∃ k : Z, 0 ≤ k ∧
    digits_value (pretty_N_go x s) acc = digits_value s (acc * 10 ^ k + Z.of_N x).
Proof.
  revert s. induction x as [|x Hpos IH] using N_digits_ind; intros s.
  - exists 0. split; [done|]. rewrite pretty_N_go_0. f_equal. lia.
  - rewrite pretty_N_go_step by done.
    destruct (IH (String (pretty_N_char (x `mod` 10)) s)) as (k & Hk & ->).
    exists (k + 1). split; [lia|]. cbn [digits_value].
    rewrite digit_value_char by (apply N.mod_lt; lia).
    cbn [mbind option_bind]. f_equal.
    rewrite Z.pow_add_r, Z.pow_1_r by lia.
    rewrite N2Z.inj_div, N2Z.inj_mod.
    assert (Z.of_N x = 10 * (Z.of_N x `div` 10) + Z.of_N x `mod` 10)
      by (apply Z.div_mod; lia).
    change (Z.of_N 10) with 10. lia.
Qed.

Lemma length_pretty_N_go_ge (x : N) (s : string) :
  (String.length s ≤ String.length (pretty_N_go x s))%nat.
Proof.
  revert s. induction x as [|x Hpos IH] using N_digits_ind; intros s.
  - by rewrite pretty_N_go_0.
  - rewrite pretty_N_go_step by done.
    specialize (IH (String (pretty_N_char (x `mod` 10)) s)). simpl in IH. lia.
Qed.

Lemma length_pretty_N_go_lower (k : nat) (x : N) (s : string) :
  (10 ^ N.of_nat k ≤ x)%N →
  (String.length s + k < String.length (pretty_N_go x s))%nat.
Proof.
  revert x s. induction k as [|k IH]; intros x s Hx.
  - rewrite pretty_N_go_step by (simpl in Hx; lia).
    pose proof (length_pretty_N_go_ge (x `div` 10)
                  (String (pretty_N_char (x `mod` 10)) s)) as Hlen.
    simpl in Hlen. lia.
  - assert (0 < x)%N as Hpos.
    { pose proof (N.pow_nonzero 10 (N.of_nat (S k))). lia. }
    rewrite pretty_N_go_step by done.
    assert (10 ^ N.of_nat k ≤ x `div` 10)%N as Hdiv.
    { apply N.div_le_lower_bound; [done|].
      rewrite Nat2N.inj_succ, N.pow_succ_r' in Hx. lia. }
    pose proof (IH _ (String (pretty_N_char (x `mod` 10)) s) Hdiv) as Hlen.
    simpl in Hlen. lia.
Qed.

Lemma length_pretty_N_go_upper (k : nat) (x : N) (s : string) :
  (x < 10 ^ N.of_nat k)%N →
  (String.length (pretty_N_go x s) ≤ String.length s + k)%nat.
Proof.
  revert x s. induction k as [|k IH]; intros x s Hx.
  - assert (x = 0)%N as -> by (simpl in Hx; lia). rewrite pretty_N_go_0. lia.
  - assert (x = 0 ∨ 0 < x)%N as [->|Hpos] by lia.
    { rewrite pretty_N_go_0. lia. }
    rewrite pretty_N_go_step by done.
    assert (x `div` 10 < 10 ^ N.of_nat k)%N as Hdiv.
    { apply N.Div0.div_lt_upper_bound.
      rewrite Nat2N.inj_succ, N.pow_succ_r' in Hx. lia. }
    pose proof (IH _ (String (pretty_N_char (x `mod` 10)) s) Hdiv) as Hlen.
    simpl in Hlen. lia.
Qed.

Lemma digits_value_pretty_pos (p : positive) :
  ∃ c s, pretty_N_go (N.pos p) "" = String c s ∧
    digits_value (String c s) 0 = Some (Z.pos p).
Proof.
  destruct (digits_value_go (N.pos p) "" 0) as (k & _ & Hv). simpl in Hv.
  pose proof (length_pretty_N_go_lower 0 (N.pos p) "") as Hlen.
  destruct (pretty_N_go (N.pos p) "") as [|c s].
  - simpl in Hlen. lia.
  - by exists c, s.
Qed.

(** The text of an integer reads back as that integer. *)
Lemma int_of_string_decimal (n : Z) : int_of_string (decimal n) = Some n.
Proof.
  destruct n as [|p|p].
  - reflexivity.
  - change (decimal (Z.pos p)) with (pretty_N_go (N.pos p) "").
    destruct (digits_value_pretty_pos p) as (c & s & -> & Hv).
    unfold int_of_string. destruct (Ascii.eqb_spec c "-") as [->|_]; [|done].
    discriminate.
  - change (decimal (Z.neg p)) with (String "-" (pretty_N_go (N.pos p) "")).
    destruct (digits_value_pretty_pos p) as (c & s & -> & Hv).
    unfold int_of_string. rewrite Ascii.eqb_refl. by rewrite Hv.
Qed.

(** An integer has more than [k] digits from [10 ^ k] on, and at most [k]
    below. *)
Lemma decimal_digits_lower (n : Z) (k : nat) :
  10 ^ Z.of_nat k ≤ Z.abs n → (k < String.length (decimal (Z.abs n)))%nat.
Proof.
  intros Hn. assert (0 < Z.abs n) as Hpos.
  { pose proof (Z.pow_pos_nonneg 10 (Z.of_nat k)). lia. }
  destruct (Z.abs n) as [|p|p] eqn:E; [lia| |lia].
  change (decimal (Z.pos p)) with (pretty_N_go (N.pos p) "").
  apply (length_pretty_N_go_lower k (N.pos p) "").
  apply N2Z.inj_le. rewrite N2Z.inj_pow, nat_N_Z. done.
Qed.

Lemma decimal_digits_upper (n : Z) (k : nat) :
  (0 < k)%nat → Z.abs n < 10 ^ Z.of_nat k →
  (String.length (decimal (Z.abs n)) ≤ k)%nat.
Proof.
  intros Hk Hn. destruct (Z.abs n) as [|p|p] eqn:E.
  - simpl. lia.
  - change (decimal (Z.pos p)) with (pretty_N_go (N.pos p) "").
    apply (length_pretty_N_go_upper k (N.pos p) "").
    apply N2Z.inj_lt. rewrite N2Z.inj_pow, nat_N_Z. done.
  - lia.
Qed.

(** [str] accepts exactly the integers below [10 ^ 4300] in absolute
    value. *)
Lemma within_str_limit_iff (n : Z) : within_str_limit n ↔ Z.abs n < 10 ^ 4300.
Proof.
  unfold within_str_limit, int_max_str_digits. split.
  - intros Hlen. destruct (decide (Z.abs n < 10 ^ 4300)) as [|Hge]; [done|].
    pose proof (decimal_digits_lower n 4300) as Hlow.
    change (Z.of_nat 4300) with 4300 in Hlow.
    assert (10 ^ 4300 ≤ Z.abs n) as Hle by (clear -Hge; apply Z.nlt_ge, Hge).
    specialize (Hlow Hle). clear -Hlen Hlow. lia.
  - intros Hlt. apply decimal_digits_upper; [clear; lia|].
    by change (Z.of_nat 4300) with 4300.
Qed.

Lemma out_of_range_msg_within page_num total_pages :
  within_str_limit page_num → within_str_limit total_pages →
  out_of_range_msg page_num total_pages = invalid_page_msg page_num total_pages.
Proof. intros Hp Ht. unfold out_of_range_msg. by rewrite bool_decide_eq_true_2. Qed.

Lemma out_of_range_msg_beyond page_num total_pages :
  ¬ within_str_limit page_num →
  out_of_range_msg page_num total_pages = int_max_str_digits_msg.
Proof.
  intros Hp. unfold out_of_range_msg. rewrite bool_decide_eq_false_2; [done|].
  by intros [? ?].
Qed.

(** ** The methods on an object whose path holds a PDF document *)

Section document.
Variables (st : state) (path : string) (pages : list Page).
Hypothesis Hself : self st !! "pdf_path" = Some (VStr path).
Hypothesis Hfile : fs st !! path = Some (PdfFile pages).

Lemma read_pages_with_pypdf2_run :
  read_pages_with_pypdf2 st = (inr (pypdf2_extract_text <$> pages), after_pypdf2 st path).
Proof using Hself Hfile.
  unfold read_pages_with_pypdf2.
  step (pdf_path_run _ _ Hself). step (open_rb_found _ _ _ Hfile).
  apply finally_emit. step (PdfReader_pdf (log (EvOpen path) st) path pages).
  unfold range. rewrite Z.sub_0_r.
  rewrite (for_range_collect pages pypdf2_extract_text (length pages) 0) by lia.
  by rewrite drop_0, firstn_all.
Qed.

Lemma read_pages_with_pdfplumber_run :
  read_pages_with_pdfplumber st =
  (inr (zip_with page_record (seqZ 0 (Z.of_nat (length pages))) pages),
   after_pdfplumber st path).
Proof using Hself Hfile.
  unfold read_pages_with_pdfplumber.
  step (pdf_path_run _ _ Hself). step (pdfplumber_open_pdf _ _ _ Hfile).
  apply finally_emit. unfold enumerate.
  by rewrite for_enumerate_collect.
Qed.

Lemma extract_text_by_page_range_run (start_page : Z) (end_page : option Z) :
  let total_pages := Z.of_nat (length pages) in
  let start_page' := if bool_decide (start_page < 1) then 1 else start_page in
  let end_page' :=
    match end_page with
    | None => total_pages
    | Some e => if bool_decide (e > total_pages) then total_pages else e
    end in
  extract_text_by_page_range start_page end_page st =
  (inr (extract_text <$> slice pages (start_page' - 1) end_page'),
   after_pdfplumber st path).
Proof using Hself Hfile.
  intros total_pages s' e'. unfold extract_text_by_page_range.
  step (pdf_path_run _ _ Hself). step (pdfplumber_open_pdf _ _ _ Hfile).
  apply finally_emit. cbv zeta. fold total_pages s' e'.
  assert (Hs : 1 ≤ s') by (unfold s'; case_bool_decide; lia).
  assert (He : e' ≤ total_pages).
  { unfold e'. destruct end_page; [case_bool_decide|]; lia. }
  unfold slice. destruct (decide (e' ≤ s' - 1)) as [Hle|Hgt].
  - rewrite range_empty by done.
    replace (Z.to_nat (e' - (s' - 1))) with 0%nat by lia. done.
  - unfold range.
    rewrite <- (Z2Nat.id (s' - 1)) at 1 by lia.
    rewrite <- (Z2Nat.id (e' - (s' - 1))) at 1 by lia.
    rewrite for_range_collect; [done|]. unfold total_pages in He. lia.
Qed.

Lemma extract_tables_by_page_invalid (page_num : Z) :
  page_num < 1 ∨ page_num > Z.of_nat (length pages) →
  extract_tables_by_page page_num st =
  (inl (ValueError (out_of_range_msg page_num (Z.of_nat (length pages)))),
   after_pdfplumber st path).
Proof using Hself Hfile.
  intros Hout. unfold extract_tables_by_page.
  step (pdf_path_run _ _ Hself). step (pdfplumber_open_pdf _ _ _ Hfile).
  apply finally_emit. cbv zeta. rewrite bool_decide_eq_true_2 by done.
  unfold out_of_range_msg, mbind, Py_bind, str, within_str_limit.
  repeat case_bool_decide; simpl; first [done | tauto].
Qed.

Lemma extract_tables_by_page_valid (page_num : Z) :
  1 ≤ page_num ≤ Z.of_nat (length pages) →
  ∃ page, pages !! Z.to_nat (page_num - 1) = Some page ∧
    extract_tables_by_page page_num st =
    (inr (extract_tables page), after_pdfplumber st path).
Proof using Hself Hfile.
  intros Hin.
  destruct (lookup_lt_is_Some_2 pages (Z.to_nat (page_num - 1))) as [page Hp];
    [lia|].
  exists page. split; [done|]. unfold extract_tables_by_page.
  step (pdf_path_run _ _ Hself). step (pdfplumber_open_pdf _ _ _ Hfile).
  apply finally_emit. cbv zeta. rewrite bool_decide_eq_false_2 by lia.
  rewrite <- (Z2Nat.id (page_num - 1)) at 1 by lia.
  by step (py_index_inside pages _ _ (after_open st path) Hp).
Qed.
End document.

(** ** Frame: what a command leaves alone *)

Lemma frame_ret {A : Type} (x : A) : frame (mret x).
Proof. by intros st. Qed.

Lemma frame_raise {A : Type} (e : exn) : frame (@raise A e).
Proof. by intros st. Qed.

Lemma frame_emit ev : frame (emit ev).
Proof. by intros st. Qed.

Lemma frame_bind {A B : Type} (m : Py A) (f : A → Py B) :
  frame m → (∀ x, frame (f x)) → frame (m ≫= f).
Proof.
  intros Hm Hf st. unfold mbind, Py_bind.
  specialize (Hm st). destruct (m st) as [[e|x] st']; simpl in Hm; [done|].
  destruct Hm as [Hs Hfs], (Hf x st') as [Hs' Hfs']. split; congruence.
Qed.

Lemma frame_finally {A : Type} (body : Py A) (cleanup : Py unit) :
  frame body → frame cleanup → frame (finally body cleanup).
Proof.
  intros Hb Hc st. unfold finally.
  specialize (Hb st). destruct (body st) as [r st']; simpl in Hb.
  specialize (Hc st'). destruct (cleanup st') as [[e|[]] st'']; simpl in *;
    destruct Hb, Hc; split; congruence.
Qed.

Lemma frame_for_ {X S : Type} (xs : list X) (body : X → S → Py S) (s : S) :
  (∀ x s, frame (body x s)) → frame (for_ xs body s).
Proof.
  intros Hbody. revert s. induction xs as [|x xs IH]; intros s; simpl.
  - apply frame_ret.
  - apply frame_bind; [apply Hbody | apply IH].
Qed.

Lemma frame_getattr name : frame (getattr name).
Proof. intros st. unfold getattr. by destruct (self st !! name). Qed.

Lemma frame_as_path v : frame (as_path v).
Proof. destruct v; first [apply frame_ret | apply frame_raise]. Qed.

Lemma frame_os_path_exists path : frame (os_path_exists path).
Proof. by intros st. Qed.

Lemma frame_open_rb path : frame (open_rb path).
Proof. intros st. unfold open_rb. by destruct (fs st !! path). Qed.

Lemma frame_py_index {A : Type} (l : list A) i : frame (py_index l i).
Proof.
  unfold py_index. cbv zeta.
  destruct (bool_decide (0 ≤ _)); [|apply frame_raise].
  destruct (l !! _); [apply frame_ret | apply frame_raise].
Qed.

Lemma frame_PdfReader path f : frame (PdfReader path f).
Proof.
  apply frame_bind; [apply frame_emit|]. intros _.
  destruct f; [apply frame_ret | apply frame_raise].
Qed.

Lemma frame_pdfplumber_open path : frame (pdfplumber_open path).
Proof.
  apply frame_bind; [apply frame_open_rb|]. intros f.
  apply frame_bind; [apply frame_emit|]. intros _.
  destruct f; [apply frame_ret|].
  apply frame_bind; [apply frame_emit|]. intros _. apply frame_raise.
Qed.

Lemma frame_str n : frame (str n).
Proof. unfold str. case_bool_decide; [apply frame_ret | apply frame_raise]. Qed.

Create HintDb frame.
#[global] Hint Resolve frame_ret frame_raise frame_emit frame_getattr
  frame_as_path frame_os_path_exists frame_open_rb frame_py_index
  frame_PdfReader frame_pdfplumber_open frame_str : frame.

Ltac frame_steps :=
  repeat first
    [ progress intros
    | apply frame_bind
    | apply frame_finally
    | apply frame_for_
    | solve [auto with frame]
    | case_bool_decide
    | case_match ].

Lemma frame_read_pages_with_pypdf2 : frame read_pages_with_pypdf2.
Proof. unfold read_pages_with_pypdf2. frame_steps. Qed.

Lemma frame_read_pages_with_pdfplumber : frame read_pages_with_pdfplumber.
Proof. unfold read_pages_with_pdfplumber. frame_steps. Qed.

Lemma frame_extract_text_by_page_range start_page end_page :
  frame (extract_text_by_page_range start_page end_page).
Proof. unfold extract_text_by_page_range. frame_steps. Qed.

Lemma frame_extract_tables_by_page page_num :
  frame (extract_tables_by_page page_num).
Proof. unfold extract_tables_by_page. frame_steps. Qed.

(** ** Ranged text extraction *)

Lemma length_slice {A : Type} (l : list A) (lo hi : Z) :
  0 ≤ lo → hi ≤ Z.of_nat (length l) →
  Z.of_nat (length (slice l lo hi)) = Z.max 0 (hi - lo).
Proof.
  intros Hlo Hhi. unfold slice. rewrite length_take, length_drop. lia.
Qed.

(** C1, as the code has it: with a PDF document behind the path,
    [extract_text_by_page_range] treats a [start_page] below 1 as 1, an
    [end_page] that is [None] or beyond the page count as the page count,
    raises nothing, and returns the pdfplumber text of the pages from the
    clamped start to the clamped end; the length of the returned list is
    [end_page - start_page + 1] after clamping when that is not negative,
    and 0 otherwise. *)
Theorem extract_text_by_page_range_clamps st path pages :
  self st !! "pdf_path" = Some (VStr path) →
  fs st !! path = Some (PdfFile pages) →
  let total_pages := Z.of_nat (length pages) in
  (∀ start_page end_page, start_page < 1 →
     extract_text_by_page_range start_page end_page st =
     extract_text_by_page_range 1 end_page st) ∧
  (∀ start_page,
     extract_text_by_page_range start_page None st =
     extract_text_by_page_range start_page (Some total_pages) st) ∧
  (∀ start_page end_page, end_page > total_pages →
     extract_text_by_page_range start_page (Some end_page) st =
     extract_text_by_page_range start_page (Some total_pages) st) ∧
  (∀ start_page end_page,
     let start_page' := if bool_decide (start_page < 1) then 1 else start_page in
     let end_page' :=
       match end_page with
       | None => total_pages
       | Some e => if bool_decide (e > total_pages) then total_pages else e
       end in
     ∃ texts,
       (extract_text_by_page_range start_page end_page st).1 = inr texts ∧
       texts = extract_text <$> slice pages (start_page' - 1) end_page' ∧
       Z.of_nat (length texts) = Z.max 0 (end_page' - start_page' + 1)).
Proof.
  intros Hself Hfile total_pages. repeat split.
  - intros s e Hs.
    rewrite !(extract_text_by_page_range_run _ _ _ Hself Hfile). cbv zeta.
    by rewrite (bool_decide_eq_true_2 (s < 1)), (bool_decide_eq_false_2 (1 < 1)).
  - intros s.
    rewrite !(extract_text_by_page_range_run _ _ _ Hself Hfile). cbv zeta.
    by rewrite (bool_decide_eq_false_2 (_ > _)) by lia.
  - intros s e He.
    rewrite !(extract_text_by_page_range_run _ _ _ Hself Hfile). cbv zeta.
    fold total_pages.
    by rewrite (bool_decide_eq_true_2 (e > _)),
      (bool_decide_eq_false_2 (total_pages > _)) by lia.
  - intros s e s' e'. eexists. split; [|split; [reflexivity|]].
    + by rewrite (extract_text_by_page_range_run _ _ _ Hself Hfile).
    + assert (1 ≤ s') by (unfold s'; case_bool_decide; lia).
      assert (e' ≤ total_pages).
      { unfold e'. destruct e; [case_bool_decide|]; lia. }
      rewrite length_fmap, length_slice by (fold total_pages; lia).
      f_equal. lia.
Qed.

(** C9: when the clamped bounds cross, and so whenever [start_page] lies
    beyond the last page, the call returns the empty list. *)
Theorem extract_text_by_page_range_crossed st path pages start_page end_page :
  self st !! "pdf_path" = Some (VStr path) →
  fs st !! path = Some (PdfFile pages) →
  let total_pages := Z.of_nat (length pages) in
  let start_page' := if bool_decide (start_page < 1) then 1 else start_page in
  let end_page' :=
    match end_page with
    | None => total_pages
    | Some e => if bool_decide (e > total_pages) then total_pages else e
    end in
  (start_page' > end_page' →
     extract_text_by_page_range start_page end_page st =
     (inr [], after_pdfplumber st path)) ∧
  (start_page > total_pages →
     extract_text_by_page_range start_page end_page st =
     (inr [], after_pdfplumber st path)).
Proof.
  intros Hself Hfile total_pages s' e'.
  assert (Hcross : s' > e' →
    extract_text_by_page_range start_page end_page st =
    (inr [], after_pdfplumber st path)).
  { intros Hgt.
    rewrite (extract_text_by_page_range_run _ _ _ Hself Hfile). cbv zeta.
    fold total_pages s' e'. unfold slice.
    by replace (Z.to_nat (e' - (s' - 1))) with 0%nat by lia. }
  split; [done|]. intros Hbeyond. apply Hcross.
  assert (e' ≤ total_pages).
  { unfold e'. destruct end_page; [case_bool_decide|]; lia. }
  unfold s'. case_bool_decide; lia.
Qed.

(** ** Table extraction *)

(** C2, as the code has it: with a PDF document of [total_pages] pages
    behind the path, [extract_tables_by_page page_num] raises [ValueError]
    exactly when [page_num < 1] or [page_num > total_pages] -- so for 0, for
    [total_pages + 1] and for every negative number.  When [page_num] and
    [total_pages] have at most 4300 digits each, the message is the one the
    method formats; it includes the decimal text of both numbers, text that
    reads back as [page_num] and as [total_pages].  When [page_num] has more
    digits, formatting the message fails and the [ValueError] raised is the
    interpreter's.  For [page_num] from 1 to [total_pages] the call returns
    the tables of that page. *)
Theorem extract_tables_by_page_checks st path pages page_num :
  self st !! "pdf_path" = Some (VStr path) →
  fs st !! path = Some (PdfFile pages) →
  let total_pages := Z.of_nat (length pages) in
  ((∃ msg, (extract_tables_by_page page_num st).1 = inl (ValueError msg)) ↔
     page_num < 1 ∨ page_num > total_pages) ∧
  (page_num < 1 ∨ page_num > total_pages →
     within_str_limit page_num → within_str_limit total_pages →
     (extract_tables_by_page page_num st).1 =
       inl (ValueError (invalid_page_msg page_num total_pages)) ∧
     includes (decimal page_num) (invalid_page_msg page_num total_pages) ∧
     includes (decimal total_pages) (invalid_page_msg page_num total_pages) ∧
     int_of_string (decimal page_num) = Some page_num ∧
     int_of_string (decimal total_pages) = Some total_pages) ∧
  (page_num < 1 ∨ page_num > total_pages →
     ¬ within_str_limit page_num →
     (extract_tables_by_page page_num st).1 =
       inl (ValueError int_max_str_digits_msg)) ∧
  (1 ≤ page_num ≤ total_pages →
     ∃ page, pages !! Z.to_nat (page_num - 1) = Some page ∧
       (extract_tables_by_page page_num st).1 = inr (extract_tables page)) ∧
  (∃ msg, (extract_tables_by_page 0 st).1 = inl (ValueError msg)) ∧
  (∃ msg, (extract_tables_by_page (total_pages + 1) st).1 = inl (ValueError msg)) ∧
  (page_num < 0 →
     ∃ msg, (extract_tables_by_page page_num st).1 = inl (ValueError msg)).
Proof.
  intros Hself Hfile total_pages.
  assert (Hbad : ∀ n, n < 1 ∨ n > total_pages →
    (extract_tables_by_page n st).1 =
    inl (ValueError (out_of_range_msg n total_pages))).
  { intros n Hn. by rewrite (extract_tables_by_page_invalid _ _ _ Hself Hfile). }
  assert (Hgood : ∀ n, 1 ≤ n ≤ total_pages →
    ∃ page, pages !! Z.to_nat (n - 1) = Some page ∧
      (extract_tables_by_page n st).1 = inr (extract_tables page)).
  { intros n Hn.
    destruct (extract_tables_by_page_valid _ _ _ Hself Hfile n Hn) as (p & Hp & E).
    exists p. by rewrite E. }
  repeat split.
  - intros [msg E]. destruct (decide (page_num < 1 ∨ page_num > total_pages)) as [|Hin];
      [done|].
    destruct (Hgood page_num) as (p & _ & E'); [lia|]. congruence.
  - intros Hout. eexists. by apply Hbad.
  - rewrite Hbad by done. by rewrite out_of_range_msg_within.
  - apply invalid_page_msg_includes.
  - apply invalid_page_msg_includes.
  - apply int_of_string_decimal.
  - apply int_of_string_decimal.
  - intros Hout Hlong. rewrite Hbad by done. by rewrite out_of_range_msg_beyond.
  - apply Hgood.
  - eexists. apply Hbad. lia.
  - eexists. apply Hbad. lia.
  - intros Hneg. eexists. apply Hbad. lia.
Qed.

(** ** Whole-document reads *)

Lemma page_record_text i page :
  page_record i page !! "text" = Some (of_text (extract_text page)).
Proof. unfold page_record. by simplify_map_eq. Qed.

Lemma length_page_records (l : list Page) a :
  length (zip_with page_record (seqZ a (Z.of_nat (length l))) l) = length l.
Proof. rewrite length_zip_with, length_seqZ. lia. Qed.

Lemma lookup_page_records (l : list Page) a (i : nat) d :
  zip_with page_record (seqZ a (Z.of_nat (length l))) l !! i = Some d →
  ∃ page, l !! i = Some page ∧ d = page_record (a + Z.of_nat i) page.
Proof.
  intros (k & page & -> & Hk & Hp)%lookup_zip_with_Some.
  apply lookup_seqZ in Hk as [-> _]. by exists page.
Qed.

Lemma page_records_numbers (l : list Page) a :
  (λ d : gmap string pyval, d !! "page_number") <$>
    zip_with page_record (seqZ a (Z.of_nat (length l))) l =
  (λ k, Some (VInt k)) <$> seqZ (a + 1) (Z.of_nat (length l)).
Proof.
  revert a. induction l as [|p l IH]; intros a; [done|].
  rewrite (seqZ_cons a) by (simpl; lia).
  rewrite (seqZ_cons (a + 1) (Z.of_nat (length (p :: l)))) by (simpl; lia).
  replace (Z.pred (Z.of_nat (length (p :: l)))) with (Z.of_nat (length l))
    by (simpl; lia).
  cbn [zip_with fmap list_fmap]. rewrite page_record_number. f_equal.
  rewrite IH. replace (Z.succ a + 1) with (Z.succ (a + 1)) by lia. done.
Qed.

Lemma page_records_texts (l : list Page) a :
  (λ d : gmap string pyval, d !! "text") <$>
    zip_with page_record (seqZ a (Z.of_nat (length l))) l =
  (λ page, Some (of_text (extract_text page))) <$> l.
Proof.
  revert a. induction l as [|p l IH]; intros a; [done|].
  rewrite seqZ_cons by (simpl; lia).
  replace (Z.pred (Z.of_nat (length (p :: l)))) with (Z.of_nat (length l))
    by (simpl; lia).
  cbn [zip_with fmap list_fmap]. rewrite page_record_text. f_equal. apply IH.
Qed.

(** C5: with a PDF document behind the path, [read_pages_with_pypdf2]
    returns one entry per page, in document order: entry [i] is whatever
    PyPDF2 extracts from page [i], an empty string or [None] included. *)
Theorem read_pages_with_pypdf2_every_page st path pages :
  self st !! "pdf_path" = Some (VStr path) →
  fs st !! path = Some (PdfFile pages) →
  ∃ texts,
    (read_pages_with_pypdf2 st).1 = inr texts ∧
    length texts = length pages ∧
    ∀ (i : nat) page,
      pages !! i = Some page → texts !! i = Some (pypdf2_extract_text page).
Proof.
  intros Hself Hfile. exists (pypdf2_extract_text <$> pages).
  rewrite (read_pages_with_pypdf2_run _ _ _ Hself Hfile).
  split; [done|]. split; [by rewrite length_fmap|].
  intros i page Hp. by rewrite list_lookup_fmap, Hp.
Qed.

(** C6: with a PDF document behind the path, [read_pages_with_pdfplumber]
    returns one record per page, in document order, whose [page_number]
    entries are 1, 2, 3, ... up to the page count. *)
Theorem read_pages_with_pdfplumber_numbering st path pages :
  self st !! "pdf_path" = Some (VStr path) →
  fs st !! path = Some (PdfFile pages) →
  ∃ records,
    (read_pages_with_pdfplumber st).1 = inr records ∧
    length records = length pages ∧
    (λ d : gmap string pyval, d !! "page_number") <$> records =
      (λ k, Some (VInt k)) <$> seqZ 1 (Z.of_nat (length pages)) ∧
    ∀ (i : nat) d, records !! i = Some d →
      d !! "page_number" = Some (VInt (Z.of_nat i + 1)) ∧
      ∃ page, pages !! i = Some page ∧
        d !! "text" = Some (of_text (extract_text page)).
Proof.
  intros Hself Hfile. eexists.
  rewrite (read_pages_with_pdfplumber_run _ _ _ Hself Hfile).
  split; [done|]. split; [apply length_page_records|].
  split; [apply (page_records_numbers pages 0)|].
  intros i d (page & Hp & ->)%lookup_page_records.
  rewrite page_record_number, page_record_text, Z.add_0_l. eauto.
Qed.

(** C7: every page number that [read_pages_with_pdfplumber] reports is
    accepted by a following [extract_tables_by_page]: the call returns the
    tables of a page, and so raises no [ValueError]. *)
Theorem reported_page_numbers_are_accepted st path pages :
  self st !! "pdf_path" = Some (VStr path) →
  fs st !! path = Some (PdfFile pages) →
  ∃ records st',
    read_pages_with_pdfplumber st = (inr records, st') ∧
    ∀ d n, d ∈ records → d !! "page_number" = Some (VInt n) →
      (∃ tables, (extract_tables_by_page n st').1 = inr tables) ∧
      (∀ msg, (extract_tables_by_page n st').1 ≠ inl (ValueError msg)).
Proof.
  intros Hself Hfile. eexists _, _.
  split; [apply (read_pages_with_pdfplumber_run _ _ _ Hself Hfile)|].
  intros d n [i Hi]%list_elem_of_lookup Hn.
  pose proof (lookup_lt_Some _ _ _ Hi) as Hlt.
  rewrite length_page_records in Hlt.
  apply lookup_page_records in Hi as (page & Hp & ->).
  rewrite page_record_number in Hn. injection Hn as <-.
  destruct (extract_tables_by_page_valid (after_pdfplumber st path) path pages)
    with (page_num := 0 + Z.of_nat i + 1) as (p & _ & E); [done..|lia|].
  rewrite E. split; [by eexists | done].
Qed.

(** ** Ranged read against whole-document reads *)

Lemma slice_all {A : Type} (l : list A) : slice l 0 (Z.of_nat (length l)) = l.
Proof.
  unfold slice. rewrite Z.sub_0_r, Nat2Z.id. simpl. by rewrite drop_0, firstn_all.
Qed.

(** C3, as the code has it: on a 10-page document
    [extract_text_by_page_range 0 100] returns the pdfplumber text of all
    ten pages in order, the same texts as the [text] entries of
    [read_pages_with_pdfplumber]; it is the list [read_pages_with_pypdf2]
    returns when PyPDF2 and pdfplumber extract the same text from every
    page. *)
Theorem extract_text_by_page_range_whole_document st path pages :
  self st !! "pdf_path" = Some (VStr path) →
  fs st !! path = Some (PdfFile pages) →
  length pages = 10%nat →
  (extract_text_by_page_range 0 (Some 100) st).1 = inr (extract_text <$> pages) ∧
  (∃ records,
     (read_pages_with_pdfplumber st).1 = inr records ∧
     (λ d : gmap string pyval, d !! "text") <$> records =
       (λ t, Some (of_text t)) <$> (extract_text <$> pages)) ∧
  (Forall (λ page, pypdf2_extract_text page = extract_text page) pages →
     (extract_text_by_page_range 0 (Some 100) st).1 =
     (read_pages_with_pypdf2 st).1).
Proof.
  intros Hself Hfile Hten.
  assert (Hrange :
    (extract_text_by_page_range 0 (Some 100) st).1 = inr (extract_text <$> pages)).
  { rewrite (extract_text_by_page_range_run _ _ _ Hself Hfile). cbv zeta.
    rewrite (bool_decide_eq_true_2 (0 < 1)) by lia.
    rewrite (bool_decide_eq_true_2 (100 > _)) by lia.
    change (1 - 1) with 0. by rewrite slice_all. }
  split; [done|]. split.
  - eexists. rewrite (read_pages_with_pdfplumber_run _ _ _ Hself Hfile).
    split; [done|]. rewrite page_records_texts. by rewrite <- list_fmap_compose.
  - intros Hagree. rewrite Hrange.
    rewrite (read_pages_with_pypdf2_run _ _ _ Hself Hfile). simpl. f_equal.
    apply list_fmap_ext. intros i page Hp. symmetry.
    by apply (Forall_lookup_1 _ _ _ _ Hagree Hp).
Qed.

(** ** Construction *)

(** C4: [PDFReader(path)] succeeds exactly when something exists at [path].
    Either way the only thing it does to the outside world is the
    existence test: no file is opened and no backend is run.  On success
    the object holds [pdf_path] and nothing else; on failure it raises
    [FileNotFoundError] and stores nothing. *)
Theorem construct_iff_exists path files tr :
  ((__init__ path (new_object files tr)).1 = inr () ↔ is_Some (files !! path)) ∧
  __init__ path (new_object files tr) =
    match files !! path with
    | Some _ =>
        (inr (),
         mkState {[ "pdf_path" := VStr path ]} files (tr ++ [EvExists path]))
    | None =>
        (inl (FileNotFoundError (not_found_msg path)),
         mkState ∅ files (tr ++ [EvExists path]))
    end.
Proof.
  assert (Hrun : __init__ path (new_object files tr) =
    match files !! path with
    | Some _ =>
        (inr (),
         mkState {[ "pdf_path" := VStr path ]} files (tr ++ [EvExists path]))
    | None =>
        (inl (FileNotFoundError (not_found_msg path)),
         mkState ∅ files (tr ++ [EvExists path]))
    end).
  { unfold __init__, new_object, mbind, Py_bind, os_path_exists, log. simpl.
    destruct (files !! path) as [f|] eqn:E.
    - rewrite bool_decide_eq_true_2 by eauto. simpl. unfold setattr. simpl.
      by rewrite insert_empty.
    - rewrite bool_decide_eq_false_2 by (by intros [? ?]). done. }
  split; [|done]. rewrite Hrun.
  destruct (files !! path) as [f|]; simpl; split; try done; eauto.
Qed.

(** ** The object across calls *)

(** C8: no method writes to the object.  Whatever a call returns or
    raises, the attribute dictionary of [self] after the call is the one
    before it: [pdf_path] keeps its value and no attribute is added. *)
Theorem methods_leave_self_unchanged st start_page end_page page_num :
  self (read_pages_with_pypdf2 st).2 = self st ∧
  self (read_pages_with_pdfplumber st).2 = self st ∧
  self (extract_text_by_page_range start_page end_page st).2 = self st ∧
  self (extract_tables_by_page page_num st).2 = self st.
Proof.
  repeat split.
  - apply frame_read_pages_with_pypdf2.
  - apply frame_read_pages_with_pdfplumber.
  - apply frame_extract_text_by_page_range.
  - apply frame_extract_tables_by_page.
Qed.

(** ** Order of opening and checking *)

(** C10: [extract_tables_by_page] opens the file before it looks at
    [page_num].  For every [page_num] the first thing the call does is
    open the path; when nothing is there, or the backend rejects the file,
    that failure is what the caller gets; a [ValueError] arises only once
    the file has been parsed, exactly for a [page_num] outside the page
    count found by this call, and that page count is the one its message
    reports (the numbers having at most 4300 digits, so that the message
    can be formatted). *)
Theorem extract_tables_by_page_opens_first st path page_num :
  self st !! "pdf_path" = Some (VStr path) →
  (∃ rest,
     trace (extract_tables_by_page page_num st).2 =
     trace st ++ EvOpen path :: rest) ∧
  (fs st !! path = None →
     (extract_tables_by_page page_num st).1 = inl (OSError path)) ∧
  (fs st !! path = Some OtherFile →
     (extract_tables_by_page page_num st).1 = inl (PdfReadError path)) ∧
  (∀ pages, fs st !! path = Some (PdfFile pages) →
     page_num < 1 ∨ page_num > Z.of_nat (length pages) →
     ∃ msg,
       (extract_tables_by_page page_num st).1 = inl (ValueError msg) ∧
       (within_str_limit page_num →
        within_str_limit (Z.of_nat (length pages)) →
        msg = invalid_page_msg page_num (Z.of_nat (length pages)))) ∧
  (∀ msg, (extract_tables_by_page page_num st).1 = inl (ValueError msg) →
     ∃ pages, fs st !! path = Some (PdfFile pages) ∧
       (page_num < 1 ∨ page_num > Z.of_nat (length pages)) ∧
       (within_str_limit page_num →
        within_str_limit (Z.of_nat (length pages)) →
        msg = invalid_page_msg page_num (Z.of_nat (length pages)))).
Proof.
  intros Hself.
  assert (Hmissing : fs st !! path = None →
    extract_tables_by_page page_num st =
    (inl (OSError path), log (EvOpen path) st)).
  { intros Hf. unfold extract_tables_by_page. step (pdf_path_run _ _ Hself).
    by rewrite (bind_inl _ _ _ _ _ (pdfplumber_open_missing _ _ Hf)). }
  assert (Hother : fs st !! path = Some OtherFile →
    extract_tables_by_page page_num st =
    (inl (PdfReadError path), after_pdfplumber st path)).
  { intros Hf. unfold extract_tables_by_page. step (pdf_path_run _ _ Hself).
    by rewrite (bind_inl _ _ _ _ _ (pdfplumber_open_other _ _ Hf)). }
  repeat split.
  - destruct (fs st !! path) as [[pages|]|] eqn:Hf.
    + destruct (decide (page_num < 1 ∨ page_num > Z.of_nat (length pages))) as [Hout|Hin].
      * rewrite (extract_tables_by_page_invalid _ _ _ Hself Hf _ Hout). simpl.
        rewrite <- ?app_assoc. by eexists.
      * destruct (extract_tables_by_page_valid _ _ _ Hself Hf page_num)
          as (p & _ & E); [lia|].
        rewrite E. simpl. rewrite <- ?app_assoc. by eexists.
    + rewrite Hother by done. simpl. rewrite <- ?app_assoc. by eexists.
    + rewrite Hmissing by done. simpl. rewrite <- ?app_assoc. by eexists.
  - intros Hf. by rewrite Hmissing.
  - intros Hf. by rewrite Hother.
  - intros pages Hf Hout. eexists.
    rewrite (extract_tables_by_page_invalid _ _ _ Hself Hf _ Hout).
    split; [done|]. intros Hp Ht. by apply out_of_range_msg_within.
  - intros msg E. destruct (fs st !! path) as [[pages|]|] eqn:Hf.
    + exists pages. split; [done|].
      destruct (decide (page_num < 1 ∨ page_num > Z.of_nat (length pages))) as [Hout|Hin].
      * rewrite (extract_tables_by_page_invalid _ _ _ Hself Hf _ Hout) in E.
        simpl in E. injection E as <-. split; [done|].
        intros Hp Ht. by apply out_of_range_msg_within.
      * destruct (extract_tables_by_page_valid _ _ _ Hself Hf page_num)
          as (p & _ & E'); [lia|].
        rewrite E' in E. discriminate.
    + rewrite Hother in E by done. discriminate.
    + rewrite Hmissing in E by done. discriminate.
Qed.

(** ** Concrete runs *)

Example sample_pypdf2 :
  (read_pages_with_pypdf2 sample_state).1 = inr [Some "one"; Some "two"; Some "three"].
Proof. vm_compute. reflexivity. Qed.

Example sample_range :
  (extract_text_by_page_range 3 (Some 1) sample_state).1 = inr [].
Proof. vm_compute. reflexivity. Qed.

Example sample_tables_err :
  (extract_tables_by_page 4 sample_state).1 =
  inl (ValueError (invalid_page_msg 4 3)).
Proof. vm_compute. reflexivity. Qed.

(** C1, as stated, fails: on a 3-page document the bounds 3 and 1 are
    already within range, so no clamping applies; the call returns the
    empty list, of length 0, where [end_page - start_page + 1] is -1. *)
Lemma extract_text_by_page_range_length_counterexample :
  self sample_state !! "pdf_path" = Some (VStr "doc.pdf") ∧
  fs sample_state !! "doc.pdf" = Some (PdfFile sample_pages) ∧
  Z.of_nat (length sample_pages) = 3 ∧
  let start_page' := if bool_decide (3 < 1) then 1 else 3 in
  let end_page' := if bool_decide (1 > 3) then 3 else 1 in
  ∃ texts,
    (extract_text_by_page_range 3 (Some 1) sample_state).1 = inr texts ∧
    Z.of_nat (length texts) ≠ end_page' - start_page' + 1.
Proof.
  split; [reflexivity|]. split; [reflexivity|]. split; [reflexivity|].
  exists []. split; [vm_compute; reflexivity | vm_compute; discriminate].
Qed.

Lemma extract_text_by_page_range_clamps_witness :
  self sample_state !! "pdf_path" = Some (VStr "doc.pdf") ∧
  fs sample_state !! "doc.pdf" = Some (PdfFile sample_pages) ∧
  extract_text_by_page_range 0 (Some 7) sample_state =
    extract_text_by_page_range 1 (Some 7) sample_state ∧
  extract_text_by_page_range 1 (Some 7) sample_state =
    extract_text_by_page_range 1 (Some 3) sample_state ∧
  ∃ texts,
    (extract_text_by_page_range 0 (Some 7) sample_state).1 = inr texts ∧
    texts = extract_text <$> slice sample_pages (1 - 1) 3 ∧
    Z.of_nat (length texts) = Z.max 0 (3 - 1 + 1).
Proof.
  split; [reflexivity|]. split; [reflexivity|].
  destruct (extract_text_by_page_range_clamps sample_state "doc.pdf" sample_pages
              eq_refl eq_refl) as (Hstart & _ & Hend & Hlen).
  split; [apply Hstart; lia|]. split; [apply Hend; simpl; lia|].
  apply (Hlen 0 (Some 7)).
Defined.

Lemma extract_text_by_page_range_crossed_witness :
  self sample_state !! "pdf_path" = Some (VStr "doc.pdf") ∧
  fs sample_state !! "doc.pdf" = Some (PdfFile sample_pages) ∧
  extract_text_by_page_range 3 (Some 1) sample_state =
    (inr [], after_pdfplumber sample_state "doc.pdf") ∧
  extract_text_by_page_range 4 None sample_state =
    (inr [], after_pdfplumber sample_state "doc.pdf").
Proof.
  split; [reflexivity|]. split; [reflexivity|]. split.
  - apply (proj1 (extract_text_by_page_range_crossed sample_state "doc.pdf"
                    sample_pages 3 (Some 1) eq_refl eq_refl)).
    vm_compute. reflexivity.
  - apply (proj2 (extract_text_by_page_range_crossed sample_state "doc.pdf"
                    sample_pages 4 None eq_refl eq_refl)).
    vm_compute. reflexivity.
Defined.

Lemma extract_tables_by_page_checks_witness :
  self sample_state !! "pdf_path" = Some (VStr "doc.pdf") ∧
  fs sample_state !! "doc.pdf" = Some (PdfFile sample_pages) ∧
  (4 < 1 ∨ 4 > Z.of_nat (length sample_pages)) ∧
  within_str_limit 4 ∧
  within_str_limit (Z.of_nat (length sample_pages)) ∧
  invalid_page_msg 4 3 = "유효하지 않은 페이지 번호: 4. 총 페이지 수: 3" ∧
  (extract_tables_by_page 4 sample_state).1 =
    inl (ValueError "유효하지 않은 페이지 번호: 4. 총 페이지 수: 3") ∧
  includes "4" "유효하지 않은 페이지 번호: 4. 총 페이지 수: 3" ∧
  includes "3" "유효하지 않은 페이지 번호: 4. 총 페이지 수: 3" ∧
  int_of_string "4" = Some 4 ∧
  int_of_string "3" = Some 3.
Proof.
  assert (Hout : 4 < 1 ∨ 4 > Z.of_nat (length sample_pages))
    by (right; simpl; lia).
  assert (Hnum : within_str_limit 4) by (vm_compute; lia).
  assert (Htot : within_str_limit (Z.of_nat (length sample_pages)))
    by (vm_compute; lia).
  split; [reflexivity|]. split; [reflexivity|]. split; [exact Hout|].
  split; [exact Hnum|]. split; [exact Htot|]. split; [reflexivity|].
  destruct (extract_tables_by_page_checks sample_state "doc.pdf" sample_pages 4
              eq_refl eq_refl) as (_ & Hmsg & _).
  exact (Hmsg Hout Hnum Htot).
Defined.

(** C2, as stated, fails: for the page number [10 ^ 4300], which has 4301
    digits, on a 3-page document the call raises [ValueError] with the
    interpreter's message about the conversion limit; that message is 117
    characters long and so does not include the page number. *)
Lemma extract_tables_by_page_message_counterexample :
  self sample_state !! "pdf_path" = Some (VStr "doc.pdf") ∧
  fs sample_state !! "doc.pdf" = Some (PdfFile sample_pages) ∧
  10 ^ 4300 > Z.of_nat (length sample_pages) ∧
  (extract_tables_by_page (10 ^ 4300) sample_state).1 =
    inl (ValueError int_max_str_digits_msg) ∧
  ¬ includes (decimal (10 ^ 4300)) int_max_str_digits_msg.
Proof.
  assert (Hbig : 10 ^ 1 ≤ 10 ^ 4300) by (apply Z.pow_le_mono_r; done).
  assert (Habs : Z.abs (10 ^ 4300) = 10 ^ 4300).
  { apply Z.abs_eq. by apply Z.pow_nonneg. }
  assert (Hlong : ¬ within_str_limit (10 ^ 4300)).
  { rewrite within_str_limit_iff, Habs. apply Z.lt_irrefl. }
  revert Hbig Habs Hlong. generalize (10 ^ 4300). intros big Hbig Habs Hlong.
  change (10 ^ 1) with 10 in Hbig.
  assert (Hout : big < 1 ∨ big > Z.of_nat (length sample_pages))
    by (right; simpl; lia).
  split; [reflexivity|]. split; [reflexivity|]. split; [simpl; lia|]. split.
  - rewrite (extract_tables_by_page_invalid sample_state "doc.pdf" sample_pages
               eq_refl eq_refl big Hout).
    simpl. by rewrite out_of_range_msg_beyond.
  - intros Hinc%includes_length. apply Hlong.
    unfold within_str_limit, int_max_str_digits. rewrite Habs.
    change (String.length int_max_str_digits_msg) with 117%nat in Hinc. lia.
Qed.

(** C3, as stated, fails: on a ten-page document from which PyPDF2 reads
    ["Helloworld"] and pdfplumber reads ["Hello world"] on every page, the
    ranged read returns pdfplumber's text and so differs from what
    [read_pages_with_pypdf2] returns. *)
Lemma extract_text_by_page_range_whole_document_counterexample :
  length (ten_pages "Helloworld" "Hello world") = 10%nat ∧
  (extract_text_by_page_range 0 (Some 100)
     (ten_page_state "Helloworld" "Hello world")).1 =
    inr (replicate 10 (Some "Hello world")) ∧
  (read_pages_with_pypdf2 (ten_page_state "Helloworld" "Hello world")).1 =
    inr (replicate 10 (Some "Helloworld")) ∧
  (extract_text_by_page_range 0 (Some 100)
     (ten_page_state "Helloworld" "Hello world")).1 ≠
  (read_pages_with_pypdf2 (ten_page_state "Helloworld" "Hello world")).1.
Proof.
  split; [reflexivity|]. split; [vm_compute; reflexivity|].
  split; [vm_compute; reflexivity|]. vm_compute. discriminate.
Qed.

Lemma extract_text_by_page_range_whole_document_witness :
  self (ten_page_state "Hello" "Hello") !! "pdf_path" = Some (VStr "ten.pdf") ∧
  fs (ten_page_state "Hello" "Hello") !! "ten.pdf" =
    Some (PdfFile (ten_pages "Hello" "Hello")) ∧
  length (ten_pages "Hello" "Hello") = 10%nat ∧
  (extract_text_by_page_range 0 (Some 100) (ten_page_state "Hello" "Hello")).1 =
  (read_pages_with_pypdf2 (ten_page_state "Hello" "Hello")).1.
Proof.
  split; [reflexivity|]. split; [reflexivity|]. split; [reflexivity|].
  destruct (extract_text_by_page_range_whole_document
              (ten_page_state "Hello" "Hello") "ten.pdf" (ten_pages "Hello" "Hello")
              eq_refl eq_refl eq_refl) as (_ & _ & Hagree).
  apply Hagree. repeat constructor.
Defined.

Lemma read_pages_with_pypdf2_every_page_witness :
  self sample_state !! "pdf_path" = Some (VStr "doc.pdf") ∧
  fs sample_state !! "doc.pdf" = Some (PdfFile sample_pages) ∧
  ∃ texts,
    (read_pages_with_pypdf2 sample_state).1 = inr texts ∧
    length texts = length sample_pages ∧
    ∀ (i : nat) page,
      sample_pages !! i = Some page → texts !! i = Some (pypdf2_extract_text page).
Proof.
  split; [reflexivity|]. split; [reflexivity|].
  apply (read_pages_with_pypdf2_every_page sample_state "doc.pdf" sample_pages);
    reflexivity.
Defined.

Lemma read_pages_with_pdfplumber_numbering_witness :
  self sample_state !! "pdf_path" = Some (VStr "doc.pdf") ∧
  fs sample_state !! "doc.pdf" = Some (PdfFile sample_pages) ∧
  ∃ records,
    (read_pages_with_pdfplumber sample_state).1 = inr records ∧
    length records = 3%nat ∧
    (λ d : gmap string pyval, d !! "page_number") <$> records =
      [Some (VInt 1); Some (VInt 2); Some (VInt 3)].
Proof.
  split; [reflexivity|]. split; [reflexivity|].
  destruct (read_pages_with_pdfplumber_numbering sample_state "doc.pdf" sample_pages
              eq_refl eq_refl) as (records & Hrun & Hlen & Hnum & _).
  exists records. split; [exact Hrun|]. split; [exact Hlen | exact Hnum].
Defined.

Lemma reported_page_numbers_are_accepted_witness :
  self sample_state !! "pdf_path" = Some (VStr "doc.pdf") ∧
  fs sample_state !! "doc.pdf" = Some (PdfFile sample_pages) ∧
  ∃ records st',
    read_pages_with_pdfplumber sample_state = (inr records, st') ∧
    ∀ d n, d ∈ records → d !! "page_number" = Some (VInt n) →
      (∃ tables, (extract_tables_by_page n st').1 = inr tables) ∧
      (∀ msg, (extract_tables_by_page n st').1 ≠ inl (ValueError msg)).
Proof.
  split; [reflexivity|]. split; [reflexivity|].
  apply (reported_page_numbers_are_accepted sample_state "doc.pdf" sample_pages);
    reflexivity.
Defined.

Lemma extract_tables_by_page_opens_first_witness :
  self sample_state !! "pdf_path" = Some (VStr "doc.pdf") ∧
  (extract_tables_by_page 7 sample_state).1 =
    inl (ValueError (invalid_page_msg 7 3)).
Proof.
  split; [reflexivity|].
  destruct (extract_tables_by_page_opens_first sample_state "doc.pdf" 7 eq_refl)
    as (_ & _ & _ & Hcount & _).
  destruct (Hcount sample_pages) as (msg & Hrun & Hmsg);
    [reflexivity | right; simpl; lia |].
  rewrite Hrun, Hmsg; [reflexivity | vm_compute; lia | vm_compute; lia].
Defined.

(** The page count is the one of the file at the time of the call: an
    object built while the path held three pages rejects page 2 once the
    path holds a one-page document, and gets the open failure once the path
    holds nothing. *)
Example page_count_read_at_call_time :
  ∃ st0,
    __init__ "doc.pdf" (new_object {[ "doc.pdf" := PdfFile sample_pages ]} []) =
      (inr (), st0) ∧
    (extract_tables_by_page 2
       (mkState (self st0) {[ "doc.pdf" := PdfFile [sample_page "a" "a"] ]} [])).1 =
      inl (ValueError (invalid_page_msg 2 1)) ∧
    (extract_tables_by_page 0 (mkState (self st0) ∅ [])).1 =
      inl (OSError "doc.pdf").
Proof. eexists. split; [vm_compute; reflexivity|]. split; vm_compute; reflexivity. Qed.

(** ** Beyond the claims: the life of the file handle *)

Lemma read_pages_with_pypdf2_other st path :
  self st !! "pdf_path" = Some (VStr path) →
  fs st !! path = Some OtherFile →
  read_pages_with_pypdf2 st = (inl (PdfReadError path), after_pypdf2 st path).
Proof.
  intros Hself Hf. unfold read_pages_with_pypdf2.
  step (pdf_path_run _ _ Hself). step (open_rb_found _ _ _ Hf).
  by apply finally_emit.
Qed.

Lemma read_pages_with_pypdf2_missing st path :
  self st !! "pdf_path" = Some (VStr path) →
  fs st !! path = None →
  read_pages_with_pypdf2 st = (inl (OSError path), log (EvOpen path) st).
Proof.
  intros Hself Hf. unfold read_pages_with_pypdf2. step (pdf_path_run _ _ Hself).
  by rewrite (bind_inl _ _ _ _ _ (open_rb_missing _ _ Hf)).
Qed.

Lemma read_pages_with_pdfplumber_missing st path :
  self st !! "pdf_path" = Some (VStr path) →
  fs st !! path = None →
  read_pages_with_pdfplumber st = (inl (OSError path), log (EvOpen path) st).
Proof.
  intros Hself Hf. unfold read_pages_with_pdfplumber.
  step (pdf_path_run _ _ Hself).
  by rewrite (bind_inl _ _ _ _ _ (pdfplumber_open_missing _ _ Hf)).
Qed.

Lemma read_pages_with_pdfplumber_other st path :
  self st !! "pdf_path" = Some (VStr path) →
  fs st !! path = Some OtherFile →
  read_pages_with_pdfplumber st =
  (inl (PdfReadError path), after_pdfplumber st path).
Proof.
  intros Hself Hf. unfold read_pages_with_pdfplumber.
  step (pdf_path_run _ _ Hself).
  by rewrite (bind_inl _ _ _ _ _ (pdfplumber_open_other _ _ Hf)).
Qed.

Lemma extract_text_by_page_range_missing st path start_page end_page :
  self st !! "pdf_path" = Some (VStr path) →
  fs st !! path = None →
  extract_text_by_page_range start_page end_page st =
  (inl (OSError path), log (EvOpen path) st).
Proof.
  intros Hself Hf. unfold extract_text_by_page_range.
  step (pdf_path_run _ _ Hself).
  by rewrite (bind_inl _ _ _ _ _ (pdfplumber_open_missing _ _ Hf)).
Qed.

Lemma extract_text_by_page_range_other st path start_page end_page :
  self st !! "pdf_path" = Some (VStr path) →
  fs st !! path = Some OtherFile →
  extract_text_by_page_range start_page end_page st =
  (inl (PdfReadError path), after_pdfplumber st path).
Proof.
  intros Hself Hf. unfold extract_text_by_page_range.
  step (pdf_path_run _ _ Hself).
  by rewrite (bind_inl _ _ _ _ _ (pdfplumber_open_other _ _ Hf)).
Qed.

(** X1: with a PDF document behind the path, every method opens the file,
    parses it and closes it, once each and in that order, whatever its
    arguments; [extract_tables_by_page] closes the file on the way out of a
    [ValueError] too. *)
Theorem methods_open_parse_close st path pages start_page end_page page_num :
  self st !! "pdf_path" = Some (VStr path) →
  fs st !! path = Some (PdfFile pages) →
  trace (read_pages_with_pypdf2 st).2 =
    trace st ++ [EvOpen path; EvParse PyPDF2 path; EvClose path] ∧
  trace (read_pages_with_pdfplumber st).2 =
    trace st ++ [EvOpen path; EvParse Pdfplumber path; EvClose path] ∧
  trace (extract_text_by_page_range start_page end_page st).2 =
    trace st ++ [EvOpen path; EvParse Pdfplumber path; EvClose path] ∧
  trace (extract_tables_by_page page_num st).2 =
    trace st ++ [EvOpen path; EvParse Pdfplumber path; EvClose path].
Proof.
  intros Hself Hfile. repeat split.
  - rewrite (read_pages_with_pypdf2_run _ _ _ Hself Hfile). simpl.
    by rewrite <- !app_assoc.
  - rewrite (read_pages_with_pdfplumber_run _ _ _ Hself Hfile). simpl.
    by rewrite <- !app_assoc.
  - rewrite (extract_text_by_page_range_run _ _ _ Hself Hfile). simpl.
    by rewrite <- !app_assoc.
  - destruct (decide (page_num < 1 ∨ page_num > Z.of_nat (length pages)))
      as [Hout|Hin].
    + rewrite (extract_tables_by_page_invalid _ _ _ Hself Hfile _ Hout). simpl.
      by rewrite <- !app_assoc.
    + destruct (extract_tables_by_page_valid _ _ _ Hself Hfile page_num)
        as (p & _ & E); [lia|].
      rewrite E. simpl. by rewrite <- !app_assoc.
Qed.

(** X2: when the path holds a file PyPDF2 cannot parse,
    [read_pages_with_pypdf2] raises the parse error and the file it opened
    is closed all the same. *)
Theorem read_pages_with_pypdf2_closes_on_parse_error st path :
  self st !! "pdf_path" = Some (VStr path) →
  fs st !! path = Some OtherFile →
  (read_pages_with_pypdf2 st).1 = inl (PdfReadError path) ∧
  trace (read_pages_with_pypdf2 st).2 =
    trace st ++ [EvOpen path; EvParse PyPDF2 path; EvClose path].
Proof.
  intros Hself Hf. rewrite (read_pages_with_pypdf2_other _ _ Hself Hf). simpl.
  by rewrite <- !app_assoc.
Qed.

(** X3: the three reading methods hand an open or parse failure on to the
    caller.  When nothing is at the path each raises the open error, having
    done nothing but try to open it; when the file is no PDF each raises the
    parse error. *)
Theorem reading_methods_propagate_failures st path start_page end_page :
  self st !! "pdf_path" = Some (VStr path) →
  (fs st !! path = None →
     read_pages_with_pypdf2 st = (inl (OSError path), log (EvOpen path) st) ∧
     read_pages_with_pdfplumber st = (inl (OSError path), log (EvOpen path) st) ∧
     extract_text_by_page_range start_page end_page st =
       (inl (OSError path), log (EvOpen path) st)) ∧
  (fs st !! path = Some OtherFile →
     (read_pages_with_pypdf2 st).1 = inl (PdfReadError path) ∧
     (read_pages_with_pdfplumber st).1 = inl (PdfReadError path) ∧
     (extract_text_by_page_range start_page end_page st).1 =
       inl (PdfReadError path)).
Proof.
  intros Hself. split; intros Hf; repeat split.
  - by apply read_pages_with_pypdf2_missing.
  - by apply read_pages_with_pdfplumber_missing.
  - by apply extract_text_by_page_range_missing.
  - by rewrite (read_pages_with_pypdf2_other _ _ Hself Hf).
  - by rewrite (read_pages_with_pdfplumber_other _ _ Hself Hf).
  - by rewrite (extract_text_by_page_range_other _ _ _ _ Hself Hf).
Qed.

(** ** Beyond the claims: ranged reads *)

Lemma slice_app {A : Type} (l : list A) (lo mid hi : Z) :
  0 ≤ lo → lo ≤ mid → mid ≤ hi →
  slice l lo mid ++ slice l mid hi = slice l lo hi.
Proof.
  intros Hlo Hmid Hhi. unfold slice.
  replace (Z.to_nat mid) with (Z.to_nat lo + Z.to_nat (mid - lo))%nat by lia.
  rewrite <- drop_drop, take_take_drop. f_equal. lia.
Qed.

Lemma slice_crossed {A : Type} (l : list A) (lo hi : Z) :
  hi ≤ lo → slice l lo hi = [].
Proof. intros H. unfold slice. by replace (Z.to_nat (hi - lo)) with 0%nat by lia. Qed.

Lemma lookup_slice {A : Type} (l : list A) (lo hi : Z) (k : nat) :
  0 ≤ lo → lo + Z.of_nat k < hi →
  slice l lo hi !! k = l !! Z.to_nat (lo + Z.of_nat k).
Proof.
  intros Hlo Hk. unfold slice. rewrite lookup_take.
  case_decide; [|lia]. rewrite lookup_drop. f_equal. lia.
Qed.

(** X4: the bounds never make [extract_text_by_page_range] fail.  It
    returns a list exactly when the path holds a PDF document, and the only
    errors it raises are the failure to open the path and the failure to
    parse the file. *)
Theorem extract_text_by_page_range_fails_only_on_file
    st path start_page end_page :
  self st !! "pdf_path" = Some (VStr path) →
  ((∃ texts, (extract_text_by_page_range start_page end_page st).1 = inr texts) ↔
     ∃ pages, fs st !! path = Some (PdfFile pages)) ∧
  (∀ e, (extract_text_by_page_range start_page end_page st).1 = inl e →
     e = OSError path ∨ e = PdfReadError path).
Proof.
  intros Hself. destruct (fs st !! path) as [[pages|]|] eqn:Hf.
  - rewrite (extract_text_by_page_range_run _ _ _ Hself Hf). simpl.
    split; [split; eauto | intros e [=]].
  - rewrite (extract_text_by_page_range_other _ _ _ _ Hself Hf). simpl.
    split; [split; [intros [? [=]] | intros [? [=]]] | intros e [= <-]; eauto].
  - rewrite (extract_text_by_page_range_missing _ _ _ _ Hself Hf). simpl.
    split; [split; [intros [? [=]] | intros [? [=]]] | intros e [= <-]; eauto].
Qed.

(** X5: called with its default arguments, start 1 and end [None],
    [extract_text_by_page_range] returns the pdfplumber text of every page
    of the document, in order: one entry per page, equal to the [text]
    entries of the records [read_pages_with_pdfplumber] returns. *)
Theorem extract_text_by_page_range_defaults st path pages :
  self st !! "pdf_path" = Some (VStr path) →
  fs st !! path = Some (PdfFile pages) →
  (extract_text_by_page_range 1 None st).1 = inr (extract_text <$> pages) ∧
  ∃ records,
    (read_pages_with_pdfplumber st).1 = inr records ∧
    (λ d : gmap string pyval, d !! "text") <$> records =
      (λ t, Some (of_text t)) <$> (extract_text <$> pages).
Proof.
  intros Hself Hfile. split.
  - rewrite (extract_text_by_page_range_run _ _ _ Hself Hfile). cbv zeta.
    rewrite (bool_decide_eq_false_2 (1 < 1)) by lia.
    change (1 - 1) with 0. by rewrite slice_all.
  - eexists. rewrite (read_pages_with_pdfplumber_run _ _ _ Hself Hfile).
    split; [done|]. rewrite page_records_texts. by rewrite <- list_fmap_compose.
Qed.

(** X6: reading a document in two adjoining ranges gives the same texts as
    reading it in one: for [1 ≤ a], [a - 1 ≤ b] and [b ≤ c], pages [a..b]
    followed by pages [b+1..c] are pages [a..c], also when [b] or [c] lies
    beyond the last page, and also with [None] for the last bound. *)
Theorem extract_text_by_page_range_adjoining st path pages a b c :
  self st !! "pdf_path" = Some (VStr path) →
  fs st !! path = Some (PdfFile pages) →
  1 ≤ a → a - 1 ≤ b → b ≤ c →
  ∃ first rest,
    (extract_text_by_page_range a (Some b) st).1 = inr first ∧
    (extract_text_by_page_range (b + 1) (Some c) st).1 = inr rest ∧
    (extract_text_by_page_range a (Some c) st).1 = inr (first ++ rest) ∧
    ∃ tail,
      (extract_text_by_page_range (b + 1) None st).1 = inr tail ∧
      (extract_text_by_page_range a None st).1 = inr (first ++ tail).
Proof.
  intros Hself Hfile Ha Hb Hc.
  rewrite !(extract_text_by_page_range_run _ _ _ Hself Hfile). cbv zeta.
  set (total := Z.of_nat (length pages)).
  rewrite (bool_decide_eq_false_2 (a < 1)), (bool_decide_eq_false_2 (b + 1 < 1))
    by lia.
  replace (b + 1 - 1) with b by lia.
  eexists _, _. split; [done|]. split; [done|]. simpl.
  assert (Hcat : ∀ hi, (if bool_decide (b > total) then total else b) ≤ hi →
    hi ≤ total →
    slice pages (a - 1) (if bool_decide (b > total) then total else b) ++
      slice pages b hi = slice pages (a - 1) hi).
  { intros hi Hlo Hhi. case_bool_decide.
    - rewrite (slice_crossed pages b hi) by lia. rewrite app_nil_r.
      f_equal. lia.
    - apply slice_app; lia. }
  split.
  - rewrite <- fmap_app. do 2 f_equal. symmetry.
    apply Hcat; repeat case_bool_decide; lia.
  - eexists. split; [done|]. rewrite <- fmap_app. do 2 f_equal. symmetry.
    apply Hcat; [case_bool_decide|]; lia.
Qed.

(** X7: page numbers are 1-based at the interface and translated exactly:
    for [1 ≤ start_page], entry [k] of the returned list is the text of page
    number [start_page + k], as long as that page lies within both
    [end_page] and the document. *)
Theorem extract_text_by_page_range_entry st path pages start_page end_page (k : nat) :
  self st !! "pdf_path" = Some (VStr path) →
  fs st !! path = Some (PdfFile pages) →
  1 ≤ start_page →
  start_page + Z.of_nat k ≤ end_page →
  start_page + Z.of_nat k ≤ Z.of_nat (length pages) →
  ∃ texts page,
    (extract_text_by_page_range start_page (Some end_page) st).1 = inr texts ∧
    pages !! Z.to_nat (start_page + Z.of_nat k - 1) = Some page ∧
    texts !! k = Some (extract_text page).
Proof.
  intros Hself Hfile Hs He Ht.
  destruct (lookup_lt_is_Some_2 pages (Z.to_nat (start_page + Z.of_nat k - 1)))
    as [page Hp]; [lia|].
  eexists _, page.
  rewrite (extract_text_by_page_range_run _ _ _ Hself Hfile). cbv zeta.
  split; [done|]. split; [done|].
  rewrite (bool_decide_eq_false_2 (start_page < 1)) by lia.
  rewrite list_lookup_fmap, lookup_slice by (try case_bool_decide; lia).
  replace (start_page - 1 + Z.of_nat k) with (start_page + Z.of_nat k - 1) by lia.
  by rewrite Hp.
Qed.

(** ** Beyond the claims: records and tables *)

Lemma page_record_keys i page : dom (page_record i page) = record_keys.
Proof.
  unfold page_record, record_keys. rewrite !dom_insert_L, dom_empty_L.
  set_solver.
Qed.

Lemma page_record_geometry i page :
  page_record i page !! "width" = Some (VNum (width page)) ∧
  page_record i page !! "height" = Some (VNum (height page)).
Proof. unfold page_record. by simplify_map_eq. Qed.

(** X8: the two pdfplumber views of a document number its pages alike: the
    record at position [i] of [read_pages_with_pdfplumber] carries a
    [page_number] for which a following [extract_tables_by_page] returns the
    tables of that same page [i], the page whose text the record holds. *)
Theorem records_and_tables_agree st path pages :
  self st !! "pdf_path" = Some (VStr path) →
  fs st !! path = Some (PdfFile pages) →
  ∃ records st',
    read_pages_with_pdfplumber st = (inr records, st') ∧
    ∀ (i : nat) d, records !! i = Some d →
      ∃ n page,
        d !! "page_number" = Some (VInt n) ∧
        pages !! i = Some page ∧
        d !! "text" = Some (of_text (extract_text page)) ∧
        (extract_tables_by_page n st').1 = inr (extract_tables page).
Proof.
  intros Hself Hfile. eexists _, _.
  split; [apply (read_pages_with_pdfplumber_run _ _ _ Hself Hfile)|].
  intros i d Hi. pose proof (lookup_lt_Some _ _ _ Hi) as Hlt.
  rewrite length_page_records in Hlt.
  apply lookup_page_records in Hi as (page & Hp & ->).
  exists (0 + Z.of_nat i + 1), page.
  split; [apply page_record_number|]. split; [done|].
  split; [apply page_record_text|].
  destruct (extract_tables_by_page_valid (after_pdfplumber st path) path pages)
    with (page_num := 0 + Z.of_nat i + 1) as (p & Hp' & E); [done..|lia|].
  rewrite E. simpl. f_equal.
  replace (Z.to_nat (0 + Z.of_nat i + 1 - 1)) with i in Hp' by lia. congruence.
Qed.

(** X9: every record of [read_pages_with_pdfplumber] has the four keys
    [text], [page_number], [width] and [height] and no other, and its
    [width] and [height] are those pdfplumber reports for the page at the
    same position. *)
Theorem read_pages_with_pdfplumber_record_shape st path pages :
  self st !! "pdf_path" = Some (VStr path) →
  fs st !! path = Some (PdfFile pages) →
  ∃ records,
    (read_pages_with_pdfplumber st).1 = inr records ∧
    ∀ (i : nat) d, records !! i = Some d →
      dom d = record_keys ∧
      ∃ page, pages !! i = Some page ∧
        d !! "width" = Some (VNum (width page)) ∧
        d !! "height" = Some (VNum (height page)).
Proof.
  intros Hself Hfile. eexists.
  rewrite (read_pages_with_pdfplumber_run _ _ _ Hself Hfile).
  split; [done|]. intros i d (page & Hp & ->)%lookup_page_records.
  split; [apply page_record_keys|]. exists page.
  split; [done | apply page_record_geometry].
Qed.

(** ** Beyond the claims: construction followed by a read *)

Lemma init_run path files tr :
  __init__ path (new_object files tr) =
    match files !! path with
    | Some _ =>
        (inr (),
         mkState {[ "pdf_path" := VStr path ]} files (tr ++ [EvExists path]))
    | None =>
        (inl (FileNotFoundError (not_found_msg path)),
         mkState ∅ files (tr ++ [EvExists path]))
    end.
Proof.
  unfold __init__, new_object, mbind, Py_bind, os_path_exists, log. simpl.
  destruct (files !! path) as [f|] eqn:E.
  - rewrite bool_decide_eq_true_2 by eauto. simpl. unfold setattr. simpl.
    by rewrite insert_empty.
  - rewrite bool_decide_eq_false_2 by (by intros [? ?]). done.
Qed.

(** X10: building a reader and reading through it at once has three
    outcomes.  With nothing at the path the constructor raises
    [FileNotFoundError] and no file is opened.  With a file that is no PDF
    the constructor accepts the path -- it tests existence only -- and the
    read raises the parse error, the file being closed again.  With a PDF
    document the read returns the PyPDF2 text of every page. *)
Theorem construct_and_read_outcomes path files tr :
  construct_and_read path (new_object files tr) =
    match files !! path with
    | None =>
        (inl (FileNotFoundError (not_found_msg path)),
         mkState ∅ files (tr ++ [EvExists path]))
    | Some OtherFile =>
        (inl (PdfReadError path),
         mkState {[ "pdf_path" := VStr path ]} files
           (tr ++ [EvExists path; EvOpen path; EvParse PyPDF2 path; EvClose path]))
    | Some (PdfFile pages) =>
        (inr (pypdf2_extract_text <$> pages),
         mkState {[ "pdf_path" := VStr path ]} files
           (tr ++ [EvExists path; EvOpen path; EvParse PyPDF2 path; EvClose path]))
    end.
Proof.
  unfold construct_and_read. pose proof (init_run path files tr) as Hinit.
  destruct (files !! path) as [[pages|]|] eqn:Hf.
  - step Hinit. rewrite (read_pages_with_pypdf2_run _ path pages) by
      (simpl; by simplify_map_eq).
    unfold after_pypdf2, log. simpl. by rewrite <- !app_assoc.
  - step Hinit. rewrite (read_pages_with_pypdf2_other _ path) by
      (simpl; by simplify_map_eq).
    unfold after_pypdf2, log. simpl. by rewrite <- !app_assoc.
  - by rewrite (bind_inl _ _ _ _ _ Hinit).
Qed.

(** ** Beyond the claims: nothing is remembered between calls *)

Lemma history_free_ret {A : Type} (x : A) : history_free (mret x).
Proof. by intros st1 st2 Hw. Qed.

Lemma history_free_raise {A : Type} (e : exn) : history_free (@raise A e).
Proof. by intros st1 st2 Hw. Qed.

Lemma history_free_emit ev : history_free (emit ev).
Proof. by intros st1 st2 Hw. Qed.

Lemma history_free_bind {A B : Type} (m : Py A) (f : A → Py B) :
  history_free m → (∀ x, history_free (f x)) → history_free (m ≫= f).
Proof.
  intros Hm Hf st1 st2 Hw. unfold mbind, Py_bind.
  destruct (Hm st1 st2 Hw) as [Hr Hw'].
  destruct (m st1) as [[e1|x1] s1], (m st2) as [[e2|x2] s2]; simpl in *;
    try discriminate.
  - by injection Hr as ->.
  - injection Hr as ->. by apply Hf.
Qed.

Lemma history_free_finally {A : Type} (body : Py A) (cleanup : Py unit) :
  history_free body → history_free cleanup → history_free (finally body cleanup).
Proof.
  intros Hb Hc st1 st2 Hw. unfold finally.
  destruct (Hb st1 st2 Hw) as [Hr Hw'].
  destruct (body st1) as [r1 s1], (body st2) as [r2 s2]; simpl in *. subst r2.
  destruct (Hc s1 s2 Hw') as [Hr' Hw''].
  destruct (cleanup s1) as [[e1|[]] t1], (cleanup s2) as [[e2|[]] t2]; simpl in *;
    try discriminate; [by injection Hr' as ->|done].
Qed.

Lemma history_free_for_ {X S : Type} (xs : list X) (body : X → S → Py S) (s : S) :
  (∀ x s, history_free (body x s)) → history_free (for_ xs body s).
Proof.
  intros Hbody. revert s. induction xs as [|x xs IH]; intros s; simpl.
  - apply history_free_ret.
  - apply history_free_bind; [apply Hbody | apply IH].
Qed.

Lemma history_free_getattr name : history_free (getattr name).
Proof.
  intros st1 st2 [Hs Hf]. unfold getattr. rewrite Hs.
  by destruct (self st2 !! name).
Qed.

Lemma history_free_as_path v : history_free (as_path v).
Proof. destruct v; first [apply history_free_ret | apply history_free_raise]. Qed.

Lemma history_free_open_rb path : history_free (open_rb path).
Proof.
  intros st1 st2 [Hs Hf]. unfold open_rb. rewrite Hf.
  by destruct (fs st2 !! path).
Qed.

Lemma history_free_py_index {A : Type} (l : list A) i : history_free (py_index l i).
Proof.
  unfold py_index. cbv zeta.
  destruct (bool_decide (0 ≤ _)); [|apply history_free_raise].
  destruct (l !! _); [apply history_free_ret | apply history_free_raise].
Qed.

Lemma history_free_PdfReader path f : history_free (PdfReader path f).
Proof.
  apply history_free_bind; [apply history_free_emit|]. intros _.
  destruct f; [apply history_free_ret | apply history_free_raise].
Qed.

Lemma history_free_pdfplumber_open path : history_free (pdfplumber_open path).
Proof.
  apply history_free_bind; [apply history_free_open_rb|]. intros f.
  apply history_free_bind; [apply history_free_emit|]. intros _.
  destruct f; [apply history_free_ret|].
  apply history_free_bind; [apply history_free_emit|]. intros _.
  apply history_free_raise.
Qed.

Lemma history_free_str n : history_free (str n).
Proof.
  unfold str. case_bool_decide; [apply history_free_ret | apply history_free_raise].
Qed.

Create HintDb history.
#[global] Hint Resolve history_free_ret history_free_raise history_free_emit
  history_free_getattr history_free_as_path history_free_open_rb
  history_free_py_index history_free_PdfReader history_free_pdfplumber_open
  history_free_str : history.

Ltac history_steps :=
  repeat first
    [ progress intros
    | apply history_free_bind
    | apply history_free_finally
    | apply history_free_for_
    | solve [auto with history]
    | case_bool_decide
    | case_match ].

Lemma history_free_read_pages_with_pypdf2 : history_free read_pages_with_pypdf2.
Proof. unfold read_pages_with_pypdf2. history_steps. Qed.

Lemma history_free_read_pages_with_pdfplumber :
  history_free read_pages_with_pdfplumber.
Proof. unfold read_pages_with_pdfplumber. history_steps. Qed.

Lemma history_free_extract_text_by_page_range start_page end_page :
  history_free (extract_text_by_page_range start_page end_page).
Proof. unfold extract_text_by_page_range. history_steps. Qed.

Lemma history_free_extract_tables_by_page page_num :
  history_free (extract_tables_by_page page_num).
Proof. unfold extract_tables_by_page. history_steps. Qed.

Lemma after_calls_same_world calls st : same_world (after_calls calls st) st.
Proof.
  unfold after_calls. revert st. induction calls as [|c calls IH]; intros st.
  - done.
  - simpl. destruct (IH (state_after c st)) as [Hs Hf].
    assert (same_world (state_after c st) st) as [Hs' Hf'].
    { destruct c; simpl.
      - apply frame_read_pages_with_pypdf2.
      - apply frame_read_pages_with_pdfplumber.
      - apply frame_extract_text_by_page_range.
      - apply frame_extract_tables_by_page. }
    split; congruence.
Qed.

(** X11: the object caches nothing.  After any series of earlier method
    calls, whatever they returned or raised, each method returns or raises
    exactly what it would have without them: every call is answered from
    the path and the file as it is now. *)
Theorem earlier_calls_do_not_matter calls st start_page end_page page_num :
  (read_pages_with_pypdf2 (after_calls calls st)).1 =
    (read_pages_with_pypdf2 st).1 ∧
  (read_pages_with_pdfplumber (after_calls calls st)).1 =
    (read_pages_with_pdfplumber st).1 ∧
  (extract_text_by_page_range start_page end_page (after_calls calls st)).1 =
    (extract_text_by_page_range start_page end_page st).1 ∧
  (extract_tables_by_page page_num (after_calls calls st)).1 =
    (extract_tables_by_page page_num st).1.
Proof.
  pose proof (after_calls_same_world calls st) as Hw. repeat split.
  - by apply history_free_read_pages_with_pypdf2.
  - by apply history_free_read_pages_with_pdfplumber.
  - by apply history_free_extract_text_by_page_range.
  - by apply history_free_extract_tables_by_page.
Qed.

(** ** Beyond the claims: a document without pages *)

(** X12: on a PDF document with no pages both whole-document reads and
    every ranged read return the empty list, and
    [extract_tables_by_page] raises [ValueError] for every page number; its
    message reports 0 pages whenever the page number has at most 4300
    digits. *)
Theorem zero_page_document st path start_page end_page page_num :
  self st !! "pdf_path" = Some (VStr path) →
  fs st !! path = Some (PdfFile []) →
  (read_pages_with_pypdf2 st).1 = inr [] ∧
  (read_pages_with_pdfplumber st).1 = inr [] ∧
  (extract_text_by_page_range start_page end_page st).1 = inr [] ∧
  (∃ msg,
     (extract_tables_by_page page_num st).1 = inl (ValueError msg) ∧
     (within_str_limit page_num → msg = invalid_page_msg page_num 0)).
Proof.
  intros Hself Hfile. repeat split.
  - by rewrite (read_pages_with_pypdf2_run _ _ _ Hself Hfile).
  - by rewrite (read_pages_with_pdfplumber_run _ _ _ Hself Hfile).
  - rewrite (extract_text_by_page_range_run _ _ _ Hself Hfile). cbv zeta.
    unfold slice. by rewrite drop_nil, take_nil.
  - eexists. rewrite (extract_tables_by_page_invalid _ _ _ Hself Hfile)
      by (simpl; lia).
    split; [done|]. intros Hnum. apply out_of_range_msg_within; [done|].
    vm_compute. lia.
Qed.

(** ** Beyond the claims: concrete runs *)

Lemma methods_open_parse_close_witness :
  self sample_state !! "pdf_path" = Some (VStr "doc.pdf") ∧
  fs sample_state !! "doc.pdf" = Some (PdfFile sample_pages) ∧
  trace (extract_tables_by_page 9 sample_state).2 =
    trace sample_state ++
    [EvOpen "doc.pdf"; EvParse Pdfplumber "doc.pdf"; EvClose "doc.pdf"].
Proof.
  split; [reflexivity|]. split; [reflexivity|].
  apply (methods_open_parse_close sample_state "doc.pdf" sample_pages 1 None 9);
    reflexivity.
Defined.

Lemma read_pages_with_pypdf2_closes_on_parse_error_witness :
  self garbage_state !! "pdf_path" = Some (VStr "notes.txt") ∧
  fs garbage_state !! "notes.txt" = Some OtherFile ∧
  (read_pages_with_pypdf2 garbage_state).1 = inl (PdfReadError "notes.txt") ∧
  trace (read_pages_with_pypdf2 garbage_state).2 =
    trace garbage_state ++
    [EvOpen "notes.txt"; EvParse PyPDF2 "notes.txt"; EvClose "notes.txt"].
Proof.
  split; [reflexivity|]. split; [reflexivity|].
  apply (read_pages_with_pypdf2_closes_on_parse_error garbage_state "notes.txt");
    reflexivity.
Defined.

Lemma reading_methods_propagate_failures_witness :
  self missing_state !! "pdf_path" = Some (VStr "gone.pdf") ∧
  fs missing_state !! "gone.pdf" = None ∧
  read_pages_with_pypdf2 missing_state =
    (inl (OSError "gone.pdf"), log (EvOpen "gone.pdf") missing_state) ∧
  read_pages_with_pdfplumber missing_state =
    (inl (OSError "gone.pdf"), log (EvOpen "gone.pdf") missing_state) ∧
  extract_text_by_page_range 1 (Some 2) missing_state =
    (inl (OSError "gone.pdf"), log (EvOpen "gone.pdf") missing_state).
Proof.
  split; [reflexivity|]. split; [reflexivity|].
  apply (proj1 (reading_methods_propagate_failures missing_state "gone.pdf"
                  1 (Some 2) eq_refl)).
  reflexivity.
Defined.

Lemma extract_text_by_page_range_fails_only_on_file_witness :
  self sample_state !! "pdf_path" = Some (VStr "doc.pdf") ∧
  ((∃ texts, (extract_text_by_page_range (-5) (Some 50) sample_state).1 = inr texts) ↔
     ∃ pages, fs sample_state !! "doc.pdf" = Some (PdfFile pages)).
Proof.
  split; [reflexivity|].
  apply (extract_text_by_page_range_fails_only_on_file sample_state "doc.pdf"
           (-5) (Some 50)).
  reflexivity.
Defined.

Lemma extract_text_by_page_range_defaults_witness :
  self sample_state !! "pdf_path" = Some (VStr "doc.pdf") ∧
  fs sample_state !! "doc.pdf" = Some (PdfFile sample_pages) ∧
  (extract_text_by_page_range 1 None sample_state).1 =
    inr (extract_text <$> sample_pages).
Proof.
  split; [reflexivity|]. split; [reflexivity|].
  apply (extract_text_by_page_range_defaults sample_state "doc.pdf" sample_pages);
    reflexivity.
Defined.

Lemma extract_text_by_page_range_adjoining_witness :
  self sample_state !! "pdf_path" = Some (VStr "doc.pdf") ∧
  fs sample_state !! "doc.pdf" = Some (PdfFile sample_pages) ∧
  ∃ first rest,
    (extract_text_by_page_range 1 (Some 2) sample_state).1 = inr first ∧
    (extract_text_by_page_range (2 + 1) (Some 5) sample_state).1 = inr rest ∧
    (extract_text_by_page_range 1 (Some 5) sample_state).1 = inr (first ++ rest) ∧
    ∃ tail,
      (extract_text_by_page_range (2 + 1) None sample_state).1 = inr tail ∧
      (extract_text_by_page_range 1 None sample_state).1 = inr (first ++ tail).
Proof.
  split; [reflexivity|]. split; [reflexivity|].
  apply (extract_text_by_page_range_adjoining sample_state "doc.pdf" sample_pages
           1 2 5); first [reflexivity | lia].
Defined.

Lemma extract_text_by_page_range_entry_witness :
  self sample_state !! "pdf_path" = Some (VStr "doc.pdf") ∧
  fs sample_state !! "doc.pdf" = Some (PdfFile sample_pages) ∧
  ∃ texts page,
    (extract_text_by_page_range 2 (Some 3) sample_state).1 = inr texts ∧
    sample_pages !! Z.to_nat (2 + Z.of_nat 1 - 1) = Some page ∧
    texts !! 1%nat = Some (extract_text page).
Proof.
  split; [reflexivity|]. split; [reflexivity|].
  apply (extract_text_by_page_range_entry sample_state "doc.pdf" sample_pages
           2 3 1); first [reflexivity | simpl; lia].
Defined.

Lemma records_and_tables_agree_witness :
  self sample_state !! "pdf_path" = Some (VStr "doc.pdf") ∧
  fs sample_state !! "doc.pdf" = Some (PdfFile sample_pages) ∧
  ∃ records st',
    read_pages_with_pdfplumber sample_state = (inr records, st') ∧
    ∀ (i : nat) d, records !! i = Some d →
      ∃ n page,
        d !! "page_number" = Some (VInt n) ∧
        sample_pages !! i = Some page ∧
        d !! "text" = Some (of_text (extract_text page)) ∧
        (extract_tables_by_page n st').1 = inr (extract_tables page).
Proof.
  split; [reflexivity|]. split; [reflexivity|].
  apply (records_and_tables_agree sample_state "doc.pdf" sample_pages);
    reflexivity.
Defined.

Lemma read_pages_with_pdfplumber_record_shape_witness :
  self sample_state !! "pdf_path" = Some (VStr "doc.pdf") ∧
  fs sample_state !! "doc.pdf" = Some (PdfFile sample_pages) ∧
  ∃ records,
    (read_pages_with_pdfplumber sample_state).1 = inr records ∧
    ∀ (i : nat) d, records !! i = Some d →
      dom d = record_keys ∧
      ∃ page, sample_pages !! i = Some page ∧
        d !! "width" = Some (VNum (width page)) ∧
        d !! "height" = Some (VNum (height page)).
Proof.
  split; [reflexivity|]. split; [reflexivity|].
  apply (read_pages_with_pdfplumber_record_shape sample_state "doc.pdf"
           sample_pages); reflexivity.
Defined.

Lemma zero_page_document_witness :
  self empty_state !! "pdf_path" = Some (VStr "empty.pdf") ∧
  fs empty_state !! "empty.pdf" = Some (PdfFile []) ∧
  (extract_text_by_page_range 1 (Some 4) empty_state).1 = inr [] ∧
  (extract_tables_by_page 1 empty_state).1 =
    inl (ValueError "유효하지 않은 페이지 번호: 1. 총 페이지 수: 0").
Proof.
  split; [reflexivity|]. split; [reflexivity|].
  destruct (zero_page_document empty_state "empty.pdf" 1 (Some 4) 1
              eq_refl eq_refl) as (_ & _ & Hrange & msg & Hrun & Hmsg).
  split; [exact Hrange|].
  rewrite Hrun, Hmsg; [reflexivity | vm_compute; lia].
Defined.

(** A series of calls, two of them failing, before a ranged read: the read
    returns what it returns on the untouched object. *)
Example reads_after_failed_calls :
  (extract_text_by_page_range 2 None
     (after_calls [CallTables 0; CallPypdf2; CallTables 9; CallRange 5 (Some 1)]
        sample_state)).1 =
  inr [Some "two"; Some "three"].
Proof. vm_compute. reflexivity. Qed.
